(** * Knowledge Search: the request/response lifecycle of [knowledge-search.js]

    A shallow embedding of the browser-side client: the submit handler
    [handleSearch], the request client [callAPI] and the rendering functions
    [displayResult], [displayMetadata], [displaySources], [escapeHtml] and
    [displayError], over an explicit model of the page elements the script
    writes to.

    - JavaScript strings are sequences of UTF-16 code units ([JsString]).
    - JavaScript numbers are binary64 values ([spec_float]).
    - A response body is a JSON value ([Json]); what a property read yields is
      a [JsValue].
    - Statements run in a small state-and-exception monad [M] over the page
      ([World]): a statement either completes or throws an error object. *)

From Stdlib Require Import Strings.Ascii Strings.String.
From Stdlib Require Import List ZArith NArith Bool Lia.
From Stdlib Require Import Floats.SpecFloat.
Import ListNotations.

Set Implicit Arguments.
Set Warnings "-register-all".

(* ================================================================== *)
(** * Strings *)
(* ================================================================== *)

(** A JavaScript string: a sequence of 16-bit code units. *)
Definition JsString := list N.

Module Utf16.

(** The bytes of a literal, which the source file holds in UTF-8. *)
Fixpoint bytes (s : string) : list N :=
  match s with
  | EmptyString => []
  | String a r => N_of_ascii a :: bytes r
  end.

(** UTF-8 decoding to code points (a truncated sequence ends the text). *)
Fixpoint decode (bs : list N) : list N :=
  match bs with
  | [] => []
  | b0 :: r =>
      if (b0 <? 128)%N then b0 :: decode r
      else if (b0 <? 224)%N then
        match r with
        | b1 :: r1 => ((b0 mod 32) * 64 + b1 mod 64)%N :: decode r1
        | _ => []
        end
      else if (b0 <? 240)%N then
        match r with
        | b1 :: b2 :: r2 =>
            ((b0 mod 16) * 4096 + (b1 mod 64) * 64 + b2 mod 64)%N :: decode r2
        | _ => []
        end
      else
        match r with
        | b1 :: b2 :: b3 :: r3 =>
            ((b0 mod 8) * 262144 + (b1 mod 64) * 4096
             + (b2 mod 64) * 64 + b3 mod 64)%N :: decode r3
        | _ => []
        end
  end.

(** A code point as one code unit, or as a surrogate pair above the BMP. *)
Definition units (cp : N) : list N :=
  if (cp <? 65536)%N then [cp]
  else let c := (cp - 65536)%N in [(55296 + c / 1024)%N; (56320 + c mod 1024)%N].

End Utf16.

(** The string a literal of the source denotes. *)
Definition js (s : string) : JsString :=
  flat_map Utf16.units (Utf16.decode (Utf16.bytes s)).

(** The double quote, written by its code unit. *)
Definition dquote : JsString := [34%N].

(** [a === b] on strings *)
Fixpoint str_eqb (a b : JsString) : bool :=
  match a, b with
  | [], [] => true
  | x :: a', y :: b' => (x =? y)%N && str_eqb a' b'
  | _, _ => false
  end.

Definition is_empty (s : JsString) : bool :=
  match s with [] => true | _ => false end.

(** [s.startsWith(p)] *)
Fixpoint starts_with (p s : JsString) : bool :=
  match p, s with
  | [], _ => true
  | _ :: _, [] => false
  | a :: p', b :: s' => (a =? b)%N && starts_with p' s'
  end.

(** [s.includes(p)] *)
Fixpoint includes (p s : JsString) : bool :=
  starts_with p s ||
  match s with
  | [] => false
  | _ :: s' => includes p s'
  end.

(** ECMAScript WhiteSpace and LineTerminator code points: what
    [String.prototype.trim] removes. All of them are in the BMP. *)
Definition is_whitespace (c : N) : bool :=
  existsb (N.eqb c)
    [9; 10; 11; 12; 13; 32; 160; 5760;
     8192; 8193; 8194; 8195; 8196; 8197; 8198; 8199; 8200; 8201; 8202;
     8232; 8233; 8239; 8287; 12288; 65279]%N.

Fixpoint trim_start (s : JsString) : JsString :=
  match s with
  | c :: r => if is_whitespace c then trim_start r else s
  | [] => []
  end.

Definition trim_end (s : JsString) : JsString := rev (trim_start (rev s)).

(** [s.trim()] *)
Definition trim (s : JsString) : JsString := trim_end (trim_start s).

(** [items.join('')] *)
Definition join_empty (items : list JsString) : JsString := concat items.

(** [items.join(',')], as [Array.prototype.toString] does. *)
Fixpoint join_comma (items : list JsString) : JsString :=
  match items with
  | [] => []
  | [x] => x
  | x :: r => x ++ js "," ++ join_comma r
  end.

(* ================================================================== *)
(** * Decimal numerals *)
(* ================================================================== *)

Definition digit_char (d : Z) : N := (48 + Z.to_N d)%N.

(** The decimal digits of a positive number, most significant first. *)
Fixpoint pos_digits (fuel : nat) (z : Z) (acc : JsString) : JsString :=
  match fuel with
  | O => acc
  | S f =>
      let acc' := digit_char (z mod 10) :: acc in
      if (z <? 10)%Z then acc' else pos_digits f (z / 10) acc'
  end.

(** The decimal numeral of a natural number ("0" for zero). Every number has
    fewer decimal digits than binary ones plus one, which bounds the loop. *)
Definition decimal (z : Z) : JsString :=
  pos_digits (S (Z.to_nat (Z.log2 z))) z [].

(* ================================================================== *)
(** * Numbers *)
(* ================================================================== *)

(** A JavaScript number is an IEEE 754 binary64 value. *)
Definition Number := spec_float.

(** The number nearest to an integer, as a numeric literal denotes it. *)
Definition Number_of_Z (z : Z) : Number := binary_normalize 53 1024 z 0 false.

(** [x / y] *)
Definition Number_div (x y : Number) : Number := SFdiv 53 1024 x y.

(** The magnitude [m * 2^e] of a finite number, when it is an integer. *)
Definition integer_magnitude (m : positive) (e : Z) : option Z :=
  if (0 <=? e)%Z then Some (Z.pos m * 2 ^ e)%Z
  else if (Z.pos m mod 2 ^ (- e) =? 0)%Z then Some (Z.pos m / 2 ^ (- e))%Z
  else None.

Definition sign_prefix (s : bool) : JsString := if s then js "-" else [].

(** [m * 2^e >= 10^21] *)
Definition at_least_1e21 (m : positive) (e : Z) : bool :=
  if (0 <=? e)%Z then (10 ^ 21 <=? Z.pos m * 2 ^ e)%Z
  else (10 ^ 21 * 2 ^ (- e) <=? Z.pos m)%Z.

(** The integer [n] for which [n / 100 - m * 2^e] is closest to zero, the larger
    one when two are as close (step 9.a of [Number.prototype.toFixed]). *)
Definition nearest_hundredths (m : positive) (e : Z) : Z :=
  if (0 <=? e)%Z then (100 * Z.pos m * 2 ^ e)%Z
  else ((2 * 100 * Z.pos m + 2 ^ (- e)) / (2 * 2 ^ (- e)))%Z.

(** [n] hundredths in fixed notation: the digits of [n], padded with zeros to
    three at least, with a point before the last two. *)
Definition hundredths (n : Z) : JsString :=
  decimal (n / 100) ++ js "." ++ [digit_char (n / 10 mod 10); digit_char (n mod 10)].

Section NumberConversions.

(** [Number::toString] on the finite numbers that are not integers below
    2^53: the shortest digits that read back as the same number, which the
    engine supplies. *)
Variable shortest_digits : Number -> JsString.

(** [Number::toString(x)]: an integer below 2^53 in magnitude prints as its
    decimal numeral. *)
Definition Number_toString (x : Number) : JsString :=
  match x with
  | S754_nan => js "NaN"
  | S754_zero _ => js "0"
  | S754_infinity s => sign_prefix s ++ js "Infinity"
  | S754_finite s m e =>
      match integer_magnitude m e with
      | Some z => if (z <? 2 ^ 53)%Z then sign_prefix s ++ decimal z
                  else shortest_digits x
      | None => shortest_digits x
      end
  end.

(** [x.toFixed(2)] *)
Definition Number_toFixed2 (x : Number) : JsString :=
  match x with
  | S754_finite s m e =>
      if at_least_1e21 m e
      then sign_prefix s ++ Number_toString (S754_finite false m e)
      else sign_prefix s ++ hundredths (nearest_hundredths m e)
  | S754_zero _ => hundredths 0
  | _ => Number_toString x
  end.

End NumberConversions.

(* ================================================================== *)
(** * Values and errors *)
(* ================================================================== *)

(** What [response.json()] yields: a JSON value. An object is kept as the
    member list of its text; a name that occurs twice has its last value. *)
Inductive Json : Type :=
| JNull
| JBool (b : bool)
| JNumber (x : Number)
| JString (s : JsString)
| JArray (items : list Json)
| JObject (members : list (JsString * Json)).

(** What an expression of the script evaluates to: [undefined], a JSON value,
    or the one built-in function a property read can reach from a JSON value,
    [String.prototype.link]. *)
Inductive JsValue : Type :=
| Undefined
| StringLink
| Val (j : Json).

(** The property names the script reads. *)
Module Key.
Inductive t : Type :=
| answer | message | metadata | sources
| fileCount | timestamp | processingTime
| name | title | url | link.

Definition text (k : t) : JsString :=
  match k with
  | answer => js "answer" | message => js "message"
  | metadata => js "metadata" | sources => js "sources"
  | fileCount => js "fileCount" | timestamp => js "timestamp"
  | processingTime => js "processingTime"
  | name => js "name" | title => js "title"
  | url => js "url" | link => js "link"
  end.

Definition is_link (k : t) : bool := match k with link => true | _ => false end.
Definition is_name (k : t) : bool := match k with name => true | _ => false end.
End Key.

(** An error object, as far as the script looks: [error.name], [error.message]. *)
Record JsError : Type := { error_name : JsString; error_message : JsString }.

(** The faults the engine itself raises as a [TypeError]. *)
Inductive Fault : Type :=
| ReadOfNullish (receiver : JsValue) (property_name : JsString)
| NotAFunction (receiver : JsValue)
| NotPrimitive (object : Json).

(** What the host supplies and the source does not fix. *)
Record Platform : Type := {
  (** [Number::toString] outside the integers below 2^53 *)
  shortest_digits : Number -> JsString;
  (** [new Date(v).toLocaleString('ja-JP')] for a primitive [v], in the
      browser's time zone *)
  toLocaleString_jaJP : JsValue -> JsString;
  (** [String(String.prototype.link)] *)
  link_source_text : JsString;
  (** the message of the engine's [TypeError] for a fault *)
  type_error_message : Fault -> JsString;
  (** the message of the [TimeoutError] [DOMException] with which a signal
      from [AbortSignal.timeout] aborts *)
  timeout_reason_message : JsString
}.

(** The reason with which the signal of [AbortSignal.timeout(ms)] aborts when
    the time is over, and with which the pending [fetch] or body read then
    rejects: a [DOMException] named [TimeoutError] (DOM Standard, the
    [timeout(milliseconds)] method of [AbortSignal]). *)
Definition timeout_reason (P : Platform) : JsError :=
  {| error_name := js "TimeoutError"; error_message := timeout_reason_message P |}.

(** The completion of an evaluation: a value, or a thrown error. *)
Inductive Completion (A : Type) : Type :=
| Normal (a : A)
| Throw (e : JsError).
Arguments Normal {A} a.
Arguments Throw {A} e.

Definition andThen {A B} (c : Completion A) (k : A -> Completion B) : Completion B :=
  match c with
  | Normal a => k a
  | Throw e => Throw e
  end.

Declare Scope completion_scope.
Delimit Scope completion_scope with completion.
Notation "'let!' x ':=' c 'in' k" := (andThen c (fun x => k))
  (at level 10, x name, c at level 100, k at level 200) : completion_scope.
Open Scope completion_scope.

(** [new Error(message)] *)
Definition Error (message : JsString) : JsError :=
  {| error_name := js "Error"; error_message := message |}.

(** The last value a member list gives a name. *)
Fixpoint own_property (k : JsString) (members : list (JsString * Json)) : option Json :=
  match members with
  | [] => None
  | (k', v) :: rest =>
      match own_property k rest with
      | Some later => Some later
      | None => if str_eqb k' k then Some v else None
      end
  end.

(** The member of a name the script reads, [undefined] when there is none. *)
Definition member (members : list (JsString * Json)) (k : Key.t) : JsValue :=
  match own_property (Key.text k) members with
  | Some x => Val x
  | None => Undefined
  end.

(** The property [k] of a value, for a property name [k] of the script; none
    for [null] and [undefined], on which a read throws. A JSON object has its
    own members and nothing of these names from [Object.prototype]; a string
    inherits [link] from [String.prototype]; a function has its [name]. *)
Definition property (v : JsValue) (k : Key.t) : option JsValue :=
  match v with
  | Undefined => None
  | Val JNull => None
  | Val (JObject members) => Some (member members k)
  | Val (JString _) => Some (if Key.is_link k then StringLink else Undefined)
  | StringLink => Some (if Key.is_name k then Val (JString (js "link")) else Undefined)
  | Val _ => Some Undefined
  end.

(** [Array.isArray(v)] *)
Definition isArray (v : JsValue) : bool :=
  match v with Val (JArray _) => true | _ => false end.

(** [v !== undefined] *)
Definition is_defined (v : JsValue) : bool :=
  match v with Undefined => false | _ => true end.

(** ToBoolean: what [if (v)] and [v || w] test. *)
Definition ToBoolean (v : JsValue) : bool :=
  match v with
  | Undefined => false
  | StringLink => true
  | Val JNull => false
  | Val (JBool b) => b
  | Val (JNumber (S754_zero _)) => false
  | Val (JNumber S754_nan) => false
  | Val (JNumber _) => true
  | Val (JString s) => negb (is_empty s)
  | Val (JArray _) => true
  | Val (JObject _) => true
  end.

(** [a || b], with [b] evaluated only when [a] is falsy. *)
Definition or_else (a : JsValue) (b : Completion JsValue) : Completion JsValue :=
  if ToBoolean a then Normal a else b.

Section Engine.

Variable P : Platform.

Definition TypeError (f : Fault) : JsError :=
  {| error_name := js "TypeError"; error_message := type_error_message P f |}.

(** [v.k]: the property, or the [TypeError] of a read on [null] or
    [undefined]. *)
Definition Get (v : JsValue) (k : Key.t) : Completion JsValue :=
  match property v k with
  | Some x => Normal x
  | None => Throw (TypeError (ReadOfNullish v (Key.text k)))
  end.

(** ToString of a JSON value. An array joins its elements with commas, null
    elements as empty strings; an object is ["[object Object]"] through
    [Object.prototype.toString], unless a member named [toString] hides that
    method: a JSON value is not callable and the conversion throws. *)
Fixpoint Json_toString (j : Json) : Completion JsString :=
  match j with
  | JNull => Normal (js "null")
  | JBool b => Normal (if b then js "true" else js "false")
  | JNumber x => Normal (Number_toString (shortest_digits P) x)
  | JString s => Normal s
  | JArray items =>
      let fix each (l : list Json) : Completion (list JsString) :=
        match l with
        | [] => Normal []
        | x :: r =>
            let! s := match x with JNull => Normal [] | _ => Json_toString x end in
            let! ss := each r in
            Normal (s :: ss)
        end in
      let! parts := each items in
      Normal (join_comma parts)
  | JObject members =>
      match own_property (js "toString") members with
      | Some _ => Throw (TypeError (NotPrimitive j))
      | None => Normal (js "[object Object]")
      end
  end.

(** ToString, as a template literal applies it to [${v}]. *)
Definition ToString (v : JsValue) : Completion JsString :=
  match v with
  | Undefined => Normal (js "undefined")
  | StringLink => Normal (link_source_text P)
  | Val j => Json_toString j
  end.

(** The conversion of an assigned value to the nullable string of
    [node.textContent]: [null] and [undefined] are the empty string. *)
Definition to_textContent (v : JsValue) : Completion JsString :=
  match v with
  | Undefined => Normal []
  | Val JNull => Normal []
  | _ => ToString v
  end.

(** [new Date(v).toLocaleString('ja-JP')]: an object is first converted to a
    primitive, which for these values is its string. *)
Definition Date_toLocaleString (v : JsValue) : Completion JsString :=
  match v with
  | Val (JArray _) | Val (JObject _) | StringLink =>
      let! s := ToString v in
      Normal (toLocaleString_jaJP P (Val (JString s)))
  | _ => Normal (toLocaleString_jaJP P v)
  end.

(** [v.toFixed(2)]: only a number has the method. *)
Definition toFixed2 (v : JsValue) : Completion JsString :=
  match v with
  | Val (JNumber x) => Normal (Number_toFixed2 (shortest_digits P) x)
  | Undefined => Throw (TypeError (ReadOfNullish v (js "toFixed")))
  | Val JNull => Throw (TypeError (ReadOfNullish v (js "toFixed")))
  | _ => Throw (TypeError (NotAFunction v))
  end.

End Engine.

(* ================================================================== *)
(** * The page *)
(* ================================================================== *)

(** The properties of the [elements] table the script reads or writes. *)
Record Elements : Type := {
  queryInput_value : JsString;
  searchBtn_disabled : bool;
  btnText_textContent : JsString;
  resultSection_display : JsString;
  loadingState_display : JsString;
  resultContent_display : JsString;
  errorContent_display : JsString;
  answerText_textContent : JsString;
  metadata_innerHTML : JsString;
  sourcesContainer_display : JsString;
  sourcesList_innerHTML : JsString;
  errorMessage_textContent : JsString
}.

(** One setter per property written; the input's value is only read. *)
Definition set_searchBtn_disabled (v : bool) (el : Elements) : Elements :=
  {| queryInput_value := queryInput_value el; searchBtn_disabled := v;
     btnText_textContent := btnText_textContent el;
     resultSection_display := resultSection_display el;
     loadingState_display := loadingState_display el;
     resultContent_display := resultContent_display el;
     errorContent_display := errorContent_display el;
     answerText_textContent := answerText_textContent el;
     metadata_innerHTML := metadata_innerHTML el;
     sourcesContainer_display := sourcesContainer_display el;
     sourcesList_innerHTML := sourcesList_innerHTML el;
     errorMessage_textContent := errorMessage_textContent el |}.

Definition set_btnText_textContent (v : JsString) (el : Elements) : Elements :=
  {| queryInput_value := queryInput_value el;
     searchBtn_disabled := searchBtn_disabled el; btnText_textContent := v;
     resultSection_display := resultSection_display el;
     loadingState_display := loadingState_display el;
     resultContent_display := resultContent_display el;
     errorContent_display := errorContent_display el;
     answerText_textContent := answerText_textContent el;
     metadata_innerHTML := metadata_innerHTML el;
     sourcesContainer_display := sourcesContainer_display el;
     sourcesList_innerHTML := sourcesList_innerHTML el;
     errorMessage_textContent := errorMessage_textContent el |}.

Definition set_resultSection_display (v : JsString) (el : Elements) : Elements :=
  {| queryInput_value := queryInput_value el;
     searchBtn_disabled := searchBtn_disabled el;
     btnText_textContent := btnText_textContent el; resultSection_display := v;
     loadingState_display := loadingState_display el;
     resultContent_display := resultContent_display el;
     errorContent_display := errorContent_display el;
     answerText_textContent := answerText_textContent el;
     metadata_innerHTML := metadata_innerHTML el;
     sourcesContainer_display := sourcesContainer_display el;
     sourcesList_innerHTML := sourcesList_innerHTML el;
     errorMessage_textContent := errorMessage_textContent el |}.

Definition set_loadingState_display (v : JsString) (el : Elements) : Elements :=
  {| queryInput_value := queryInput_value el;
     searchBtn_disabled := searchBtn_disabled el;
     btnText_textContent := btnText_textContent el;
     resultSection_display := resultSection_display el; loadingState_display := v;
     resultContent_display := resultContent_display el;
     errorContent_display := errorContent_display el;
     answerText_textContent := answerText_textContent el;
     metadata_innerHTML := metadata_innerHTML el;
     sourcesContainer_display := sourcesContainer_display el;
     sourcesList_innerHTML := sourcesList_innerHTML el;
     errorMessage_textContent := errorMessage_textContent el |}.

Definition set_resultContent_display (v : JsString) (el : Elements) : Elements :=
  {| queryInput_value := queryInput_value el;
     searchBtn_disabled := searchBtn_disabled el;
     btnText_textContent := btnText_textContent el;
     resultSection_display := resultSection_display el;
     loadingState_display := loadingState_display el; resultContent_display := v;
     errorContent_display := errorContent_display el;
     answerText_textContent := answerText_textContent el;
     metadata_innerHTML := metadata_innerHTML el;
     sourcesContainer_display := sourcesContainer_display el;
     sourcesList_innerHTML := sourcesList_innerHTML el;
     errorMessage_textContent := errorMessage_textContent el |}.

Definition set_errorContent_display (v : JsString) (el : Elements) : Elements :=
  {| queryInput_value := queryInput_value el;
     searchBtn_disabled := searchBtn_disabled el;
     btnText_textContent := btnText_textContent el;
     resultSection_display := resultSection_display el;
     loadingState_display := loadingState_display el;
     resultContent_display := resultContent_display el; errorContent_display := v;
     answerText_textContent := answerText_textContent el;
     metadata_innerHTML := metadata_innerHTML el;
     sourcesContainer_display := sourcesContainer_display el;
     sourcesList_innerHTML := sourcesList_innerHTML el;
     errorMessage_textContent := errorMessage_textContent el |}.

Definition set_answerText_textContent (v : JsString) (el : Elements) : Elements :=
  {| queryInput_value := queryInput_value el;
     searchBtn_disabled := searchBtn_disabled el;
     btnText_textContent := btnText_textContent el;
     resultSection_display := resultSection_display el;
     loadingState_display := loadingState_display el;
     resultContent_display := resultContent_display el;
     errorContent_display := errorContent_display el; answerText_textContent := v;
     metadata_innerHTML := metadata_innerHTML el;
     sourcesContainer_display := sourcesContainer_display el;
     sourcesList_innerHTML := sourcesList_innerHTML el;
     errorMessage_textContent := errorMessage_textContent el |}.

Definition set_metadata_innerHTML (v : JsString) (el : Elements) : Elements :=
  {| queryInput_value := queryInput_value el;
     searchBtn_disabled := searchBtn_disabled el;
     btnText_textContent := btnText_textContent el;
     resultSection_display := resultSection_display el;
     loadingState_display := loadingState_display el;
     resultContent_display := resultContent_display el;
     errorContent_display := errorContent_display el;
     answerText_textContent := answerText_textContent el; metadata_innerHTML := v;
     sourcesContainer_display := sourcesContainer_display el;
     sourcesList_innerHTML := sourcesList_innerHTML el;
     errorMessage_textContent := errorMessage_textContent el |}.

Definition set_sourcesContainer_display (v : JsString) (el : Elements) : Elements :=
  {| queryInput_value := queryInput_value el;
     searchBtn_disabled := searchBtn_disabled el;
     btnText_textContent := btnText_textContent el;
     resultSection_display := resultSection_display el;
     loadingState_display := loadingState_display el;
     resultContent_display := resultContent_display el;
     errorContent_display := errorContent_display el;
     answerText_textContent := answerText_textContent el;
     metadata_innerHTML := metadata_innerHTML el; sourcesContainer_display := v;
     sourcesList_innerHTML := sourcesList_innerHTML el;
     errorMessage_textContent := errorMessage_textContent el |}.

Definition set_sourcesList_innerHTML (v : JsString) (el : Elements) : Elements :=
  {| queryInput_value := queryInput_value el;
     searchBtn_disabled := searchBtn_disabled el;
     btnText_textContent := btnText_textContent el;
     resultSection_display := resultSection_display el;
     loadingState_display := loadingState_display el;
     resultContent_display := resultContent_display el;
     errorContent_display := errorContent_display el;
     answerText_textContent := answerText_textContent el;
     metadata_innerHTML := metadata_innerHTML el;
     sourcesContainer_display := sourcesContainer_display el;
     sourcesList_innerHTML := v;
     errorMessage_textContent := errorMessage_textContent el |}.

Definition set_errorMessage_textContent (v : JsString) (el : Elements) : Elements :=
  {| queryInput_value := queryInput_value el;
     searchBtn_disabled := searchBtn_disabled el;
     btnText_textContent := btnText_textContent el;
     resultSection_display := resultSection_display el;
     loadingState_display := loadingState_display el;
     resultContent_display := resultContent_display el;
     errorContent_display := errorContent_display el;
     answerText_textContent := answerText_textContent el;
     metadata_innerHTML := metadata_innerHTML el;
     sourcesContainer_display := sourcesContainer_display el;
     sourcesList_innerHTML := sourcesList_innerHTML el; errorMessage_textContent := v |}.

(** The configuration table. *)
Record ApiConfig : Type := {
  endpoint : JsString;
  timeout : Z;          (* milliseconds *)
  maxRetries : Z
}.

Definition API_CONFIG : ApiConfig :=
  {| endpoint := js "http://localhost:5678/webhook/ai-search";
     timeout := 30000;
     maxRetries := 1 |}.

(** The object [callAPI] serialises as the request body. *)
Record RequestBody : Type := { body_query : JsString; body_timestamp : JsString }.

(** The arguments of the one [fetch] call. *)
Record Request : Type := {
  request_url : JsString;
  request_method : JsString;
  request_content_type : JsString;
  request_body : RequestBody;       (* sent as [JSON.stringify] of it *)
  request_signal_timeout : Z        (* [AbortSignal.timeout(ms)] *)
}.

(** What the script does to the world besides writing to its elements. *)
Inductive Event : Type :=
| Alert (text : JsString)
| Fetch (request : Request)
| ConsoleLogRequest (body : RequestBody)
| ConsoleLogResponse (data : Json)
| ConsoleError (error : JsError)
| ScrollIntoViewAfter (delay : Z).

Record World : Type := { page : Elements; events : list Event }.

(** How the body of a response reads as JSON. *)
Inductive BodyOutcome : Type :=
| BodyJson (data : Json)
| BodyRejected (reason : JsError).

Record Response : Type := {
  status : N;
  statusText : JsString;
  body : BodyOutcome
}.

(** [response.ok]: the status is in the range 200 to 299. *)
Definition ok (r : Response) : bool := (200 <=? status r)%N && (status r <=? 299)%N.

(** How the promise of [fetch] settles. *)
Inductive FetchOutcome : Type :=
| Resolved (response : Response)
| Rejected (reason : JsError).

(** What one run of the handler takes from outside: the clock reading of
    [new Date().toISOString()] and how the request settles. *)
Record Env : Type := { now : JsString; settles : FetchOutcome }.

(* ================================================================== *)
(** * Statements *)
(* ================================================================== *)

(** A statement transforms the world and completes or throws. *)
Definition M (A : Type) : Type := World -> Completion A * World.

Definition ret {A} (a : A) : M A := fun w => (Normal a, w).

Definition throw {A} (e : JsError) : M A := fun w => (Throw e, w).

Definition bind {A B} (m : M A) (k : A -> M B) : M B :=
  fun w =>
    match m w with
    | (Normal a, w') => k a w'
    | (Throw e, w') => (Throw e, w')
    end.

(** An expression evaluated inside a statement. *)
Definition evaluate {A} (c : Completion A) : M A := fun w => (c, w).

Declare Scope stmt_scope.
Delimit Scope stmt_scope with stmt.
Notation "x <- m ;; k" := (bind m (fun x => k))
  (at level 61, m at next level, right associativity) : stmt_scope.
Notation "m ;; k" := (bind m (fun _ => k))
  (at level 61, right associativity) : stmt_scope.
Open Scope stmt_scope.

(** [try { body } catch (error) { handler }] *)
Definition try_catch {A} (body : M A) (handler : JsError -> M A) : M A :=
  fun w =>
    match body w with
    | (Normal a, w') => (Normal a, w')
    | (Throw e, w') => handler e w'
    end.

(** [try { body } finally { cleanup }]: the cleanup runs on both exits, and the
    completion of the body stands unless the cleanup throws. *)
Definition try_finally {A} (body : M A) (cleanup : M unit) : M A :=
  fun w =>
    match body w with
    | (c, w') =>
        match cleanup w' with
        | (Normal _, w'') => (c, w'')
        | (Throw e, w'') => (Throw e, w'')
        end
    end.

Definition update (f : Elements -> Elements) : M unit :=
  fun w => (Normal tt, {| page := f (page w); events := events w |}).

Definition emit (e : Event) : M unit :=
  fun w => (Normal tt, {| page := page w; events := events w ++ [e] |}).

Definition read {A} (f : Elements -> A) : M A :=
  fun w => (Normal (f (page w)), w).

(* ================================================================== *)
(** * The script *)
(* ================================================================== *)

Definition newline : JsString := [10%N].
Definition spaces (n : nat) : JsString := repeat 32%N n.
Definition quoted (s : JsString) : JsString := dquote ++ s ++ dquote.

(** The serialisation of a text node, as [innerHTML] reads it back: the
    ampersand, the no-break space and the angle brackets are replaced; a
    quote is not. *)
Definition escape_unit (c : N) : JsString :=
  if (c =? 38)%N then js "&amp;"
  else if (c =? 160)%N then js "&nbsp;"
  else if (c =? 60)%N then js "&lt;"
  else if (c =? 62)%N then js "&gt;"
  else [c].

Definition serialize_text (s : JsString) : JsString := flat_map escape_unit s.

(** The three entries of the metadata block. *)
Definition fileCount_item (count : JsString) : JsString :=
  js "<div class=" ++ quoted (js "metadata-item") ++ js ">📄 "
  ++ count ++ js "件のファイルを参照</div>".

Definition timestamp_item (timeStr : JsString) : JsString :=
  js "<div class=" ++ quoted (js "metadata-item") ++ js ">⏱️ "
  ++ timeStr ++ js "</div>".

Definition processingTime_item (seconds : JsString) : JsString :=
  js "<div class=" ++ quoted (js "metadata-item") ++ js ">⚡ "
  ++ seconds ++ js "秒</div>".

(** The anchor of one source, around the escaped target and label. *)
Definition source_item (href label : JsString) : JsString :=
  newline ++ spaces 16
  ++ js "<a href=" ++ quoted href
  ++ js " target=" ++ quoted (js "_blank")
  ++ js " rel=" ++ quoted (js "noopener noreferrer")
  ++ js " class=" ++ quoted (js "source-item") ++ js ">"
  ++ newline ++ spaces 20
  ++ js "<svg class=" ++ quoted (js "source-icon")
  ++ js " viewBox=" ++ quoted (js "0 0 24 24")
  ++ js " fill=" ++ quoted (js "none")
  ++ js " stroke=" ++ quoted (js "currentColor")
  ++ js " stroke-width=" ++ quoted (js "2") ++ js ">"
  ++ newline ++ spaces 24
  ++ js "<path d="
  ++ quoted (js "M13 2H6a2 2 0 0 0-2 2v16a2 2 0 0 0 2 2h12a2 2 0 0 0 2-2V9z")
  ++ js "></path>"
  ++ newline ++ spaces 24
  ++ js "<polyline points=" ++ quoted (js "13 2 13 9 20 9") ++ js "></polyline>"
  ++ newline ++ spaces 20 ++ js "</svg>"
  ++ newline ++ spaces 20
  ++ js "<span class=" ++ quoted (js "source-name") ++ js ">"
  ++ label ++ js "</span>"
  ++ newline ++ spaces 16 ++ js "</a>"
  ++ newline ++ spaces 12.

Definition fallback_answer : JsString := js "回答が取得できませんでした".
Definition fallback_error : JsString := js "エラーが発生しました".
Definition placeholder_url : JsString := js "#".

(** [`参照 ${index + 1}`] *)
Definition reference_label (index : nat) : JsString :=
  js "参照 " ++ decimal (Z.of_nat index + 1).

(** [`HTTPエラー: ${response.status} ${response.statusText}`] *)
Definition http_error_message (r : Response) : JsString :=
  js "HTTPエラー: " ++ decimal (Z.of_N (status r)) ++ js " " ++ statusText r.

Definition array_items (v : JsValue) : list Json :=
  match v with Val (JArray items) => items | _ => [] end.

Section Script.

Variable P : Platform.

(** [`リクエストがタイムアウトしました（${API_CONFIG.timeout / 1000}秒以上）`] *)
Definition timeout_message : JsString :=
  js "リクエストがタイムアウトしました（"
  ++ Number_toString (shortest_digits P)
       (Number_div (Number_of_Z (timeout API_CONFIG)) (Number_of_Z 1000))
  ++ js "秒以上）".

Definition connection_message : JsString :=
  js "サーバーに接続できません。" ++ newline ++ newline
  ++ js "Webhook URLを確認してください:" ++ newline ++ endpoint API_CONFIG.

(** ** UI state *)

Definition showLoading : M unit :=
  update (set_searchBtn_disabled true) ;;
  update (set_btnText_textContent (js "検索中...")) ;;
  update (set_resultSection_display (js "block")) ;;
  update (set_loadingState_display (js "block")) ;;
  update (set_resultContent_display (js "none")) ;;
  update (set_errorContent_display (js "none")) ;;
  emit (ScrollIntoViewAfter 100).

Definition restoreButtonState : M unit :=
  update (set_searchBtn_disabled false) ;;
  update (set_btnText_textContent (js "検索")).

(** ** Request client *)

Definition callAPI (env : Env) (query : JsString) : M Json :=
  let requestBody := {| body_query := query; body_timestamp := now env |} in
  emit (ConsoleLogRequest requestBody) ;;
  try_catch
    (emit (Fetch {| request_url := endpoint API_CONFIG;
                    request_method := js "POST";
                    request_content_type := js "application/json";
                    request_body := requestBody;
                    request_signal_timeout := timeout API_CONFIG |}) ;;
     match settles env with
     | Rejected reason => throw reason
     | Resolved response =>
         if negb (ok response)
         then throw (Error (http_error_message response))
         else
           match body response with
           | BodyRejected reason => throw reason
           | BodyJson data =>
               emit (ConsoleLogResponse data) ;;
               ret data
           end
     end)
    (fun error =>
       if str_eqb (error_name error) (js "AbortError")
       then throw (Error timeout_message)
       else throw error).

(** ** Rendering *)

(** [escapeHtml(text)]: the text is assigned to the [textContent] of a fresh
    element, whose [innerHTML] is returned. *)
Definition escapeHtml (text : JsValue) : Completion JsString :=
  let! content := to_textContent P text in
  Normal (serialize_text content).

(** The [items] array [displayMetadata] builds, entry by entry. *)
Definition metadata_items (metadata : JsValue) : Completion (list JsString) :=
  let! fileCount := Get P metadata Key.fileCount in
  let! items1 :=
    if is_defined fileCount
    then let! count := ToString P fileCount in Normal [fileCount_item count]
    else Normal [] in
  let! timestamp := Get P metadata Key.timestamp in
  let! items2 :=
    if ToBoolean timestamp
    then let! timeStr := Date_toLocaleString P timestamp in
         Normal (items1 ++ [timestamp_item timeStr])
    else Normal items1 in
  let! processingTime := Get P metadata Key.processingTime in
  if is_defined processingTime
  then let! seconds := toFixed2 P processingTime in
       Normal (items2 ++ [processingTime_item seconds])
  else Normal items2.

Definition displayMetadata (metadata : JsValue) : M unit :=
  items <- evaluate (metadata_items metadata) ;;
  if (0 <? length items)%nat
  then update (set_metadata_innerHTML (join_empty items))
  else ret tt.

(** The callback of [sources.map]. *)
Definition source_html (source : Json) (index : nat) : Completion JsString :=
  let! name :=
    (let! n := Get P (Val source) Key.name in
     or_else n
       (let! t := Get P (Val source) Key.title in
        or_else t (Normal (Val (JString (reference_label index)))))) in
  let! url :=
    (let! u := Get P (Val source) Key.url in
     or_else u
       (let! l := Get P (Val source) Key.link in
        or_else l (Normal (Val (JString placeholder_url))))) in
  let! href := escapeHtml url in
  let! label := escapeHtml name in
  Normal (source_item href label).

(** [sources.map(callback)], from the given index on. *)
Fixpoint map_sources (sources : list Json) (index : nat) : Completion (list JsString) :=
  match sources with
  | [] => Normal []
  | source :: rest =>
      let! html := source_html source index in
      let! htmls := map_sources rest (S index) in
      Normal (html :: htmls)
  end.

Definition displaySources (sources : list Json) : M unit :=
  update (set_sourcesContainer_display (js "block")) ;;
  htmls <- evaluate (map_sources sources 0) ;;
  update (set_sourcesList_innerHTML (join_empty htmls)).

(** [data.answer || data.message || '回答が取得できませんでした'] *)
Definition answer_of (data : JsValue) : Completion JsValue :=
  let! a := Get P data Key.answer in
  or_else a
    (let! m := Get P data Key.message in
     or_else m (Normal (Val (JString fallback_answer)))).

Definition displayResult (data : JsValue) : M unit :=
  update (set_loadingState_display (js "none")) ;;
  update (set_resultContent_display (js "block")) ;;
  update (set_errorContent_display (js "none")) ;;
  answer <- evaluate (answer_of data) ;;
  text <- evaluate (to_textContent P answer) ;;
  update (set_answerText_textContent text) ;;
  metadata <- evaluate (Get P data Key.metadata) ;;
  (if ToBoolean metadata then displayMetadata metadata else ret tt) ;;
  sources <- evaluate (Get P data Key.sources) ;;
  if ToBoolean sources && isArray sources
     && (0 <? length (array_items sources))%nat
  then displaySources (array_items sources)
  else update (set_sourcesContainer_display (js "none")).

(** ** Errors *)

(** The message [displayError] shows: [error.message], or the fixed text for
    an empty one, replaced by the connection text when the message includes
    ['Failed to fetch']. *)
Definition error_text (error : JsError) : JsString :=
  let errorMsg :=
    if is_empty (error_message error) then fallback_error
    else error_message error in
  if includes (js "Failed to fetch") (error_message error)
  then connection_message
  else errorMsg.

Definition displayError (error : JsError) : M unit :=
  emit (ConsoleError error) ;;
  update (set_loadingState_display (js "none")) ;;
  update (set_resultContent_display (js "none")) ;;
  update (set_errorContent_display (js "block")) ;;
  update (set_errorMessage_textContent (error_text error)).

(** ** The submit handler *)

Definition handleSearch (env : Env) : M unit :=
  value <- read queryInput_value ;;
  let query := trim value in
  if is_empty query
  then emit (Alert (js "質問を入力してください"))
  else
    showLoading ;;
    try_finally
      (try_catch
         (response <- callAPI env query ;;
          displayResult (Val response))
         (fun error => displayError error))
      restoreButtonState.

(** ** The development helper *)

Definition mockData (env : Env) : Json :=
  JObject
    [ (js "answer",
       JString (js "これはテストの回答です。実際のAPIレスポンスがここに表示されます。"));
      (js "metadata",
       JObject
         [ (js "fileCount", JNumber (Number_of_Z 3));
           (js "timestamp", JString (now env));
           (js "processingTime",
            JNumber (Number_div (Number_of_Z 123) (Number_of_Z 100))) ]);
      (js "sources",
       JArray
         [ JObject [ (js "name", JString (js "プロジェクト進行ガイド"));
                     (js "url", JString (js "https://example.com/guide")) ];
           JObject [ (js "name", JString (js "契約書テンプレート"));
                     (js "url", JString (js "https://example.com/template")) ] ]) ].

Definition showMockResult (env : Env) : M unit :=
  displayResult (Val (mockData env)) ;;
  restoreButtonState.

(** ** Keyboard *)

(** A call of an async function that is not awaited: the caller goes on
    normally, whatever the call does and however it completes. *)
Definition not_awaited {A} (m : M A) : M unit :=
  fun w => (Normal tt, snd (m w)).

(** The listener of [keydown] on the input, for the [key] and [shiftKey] of the
    event. It returns whether it called [event.preventDefault()]. *)
Definition onKeydown (key : JsString) (shiftKey : bool) (env : Env) : M bool :=
  if str_eqb key (js "Enter") && negb shiftKey
  then not_awaited (handleSearch env) ;; ret true
  else ret false.

End Script.

(** The listener of [focus] on the input, as a function of the value and the
    placeholder of the input to its new placeholder. *)
Definition onFocus (value placeholder : JsString) : JsString :=
  if is_empty (trim value)
  then js "質問を入力してください" ++ newline
       ++ js "例：プロジェクトの進め方、契約書のテンプレート、etc."
  else placeholder.

(* ================================================================== *)
(** * Specification vocabulary *)
(* ================================================================== *)

Unset Implicit Arguments.

(** ** Texts and values *)

(** A text of white space only. *)
Definition blank (s : JsString) : Prop := Forall (fun c => is_whitespace c = true) s.

(** A value that is absent ([undefined] or [null]) or the empty text. *)
Definition no_text (v : JsValue) : Prop :=
  v = Undefined \/ v = Val JNull \/ v = Val (JString []).

(** A value that is absent or a text. *)
Definition text_or_absent (v : JsValue) : Prop :=
  v = Undefined \/ v = Val JNull \/ exists s, v = Val (JString s).

(** ** Statements *)

(** A statement keeps a property of the page, however it completes. *)
Definition preserves {A} (I : Elements -> Prop) (m : M A) : Prop :=
  forall w, I (page w) -> I (page (snd (m w))).

(** A statement leaves the page with a property, however it completes. *)
Definition establishes {A} (Q : Elements -> Prop) (m : M A) : Prop :=
  forall w, Q (page (snd (m w))).

(** A statement that completes normally leaves the page with a property. *)
Definition returns_with {A} (Q : Elements -> Prop) (m : M A) : Prop :=
  forall w a, fst (m w) = Normal a -> Q (page (snd (m w))).

(** A statement never throws. *)
Definition total {A} (m : M A) : Prop :=
  forall w, exists a, fst (m w) = Normal a.

(** ** The displays of the page *)

Definition shows_result (el : Elements) : Prop :=
  loadingState_display el = js "none"
  /\ resultContent_display el = js "block"
  /\ errorContent_display el = js "none".

Definition shows_error (el : Elements) : Prop :=
  loadingState_display el = js "none"
  /\ resultContent_display el = js "none"
  /\ errorContent_display el = js "block".

Definition submit_ready (el : Elements) : Prop :=
  searchBtn_disabled el = false /\ btnText_textContent el = js "検索".

(** ** The parts of the handler and of [displayResult] *)

Section Parts.

Variable P : Platform.

(** The attempt of [handleSearch], between [showLoading] and the cleanup. *)
Definition attempt (env : Env) (query : JsString) : M unit :=
  try_catch
    (response <- callAPI P env query ;;
     displayResult P (Val response))
    (fun error => displayError error).

(** The three blocks of [displayResult] after the displays are set: the
    answer text, the metadata, the sources. *)
Definition answer_block (data : JsValue) : M unit :=
  answer <- evaluate (answer_of P data) ;;
  text <- evaluate (to_textContent P answer) ;;
  update (set_answerText_textContent text).

Definition metadata_block (data : JsValue) : M unit :=
  metadata <- evaluate (Get P data Key.metadata) ;;
  if ToBoolean metadata then displayMetadata P metadata else ret tt.

Definition sources_block (data : JsValue) : M unit :=
  sources <- evaluate (Get P data Key.sources) ;;
  if ToBoolean sources && isArray sources
     && (0 <? length (array_items sources))%nat
  then displaySources P (array_items sources)
  else update (set_sourcesContainer_display (js "none")).

End Parts.

(** ** The answer *)

(** A property of the response that is absent, null or the empty text. *)
Definition lacks_text (data : JsValue) (k : Key.t) : Prop :=
  exists v, property data k = Some v /\ no_text v.

(** The text [displayResult] shows for a response whose properties can be
    read, as the precedence of its [answer] and [message] gives it. No rule
    applies to a [null] body, which has no property to read. *)
Inductive displayed_answer (data : JsValue) : JsString -> Prop :=
| answer_first s :
    property data Key.answer = Some (Val (JString s)) -> s <> [] ->
    displayed_answer data s
| message_second s :
    lacks_text data Key.answer ->
    property data Key.message = Some (Val (JString s)) -> s <> [] ->
    displayed_answer data s
| fallback_last :
    lacks_text data Key.answer ->
    lacks_text data Key.message ->
    displayed_answer data fallback_answer.

(** ** The sources *)

(** The first non-empty text of two values, else a default. *)
Definition first_text (a b : JsValue) (default : JsString) : JsString :=
  match a with
  | Val (JString (c :: s)) => c :: s
  | _ =>
      match b with
      | Val (JString (c :: s)) => c :: s
      | _ => default
      end
  end.

(** The label and the target of a source object at an index, as the
    precedence of its members gives them. *)
Definition entry_label (members : list (JsString * Json)) (index : nat) : JsString :=
  first_text (member members Key.name) (member members Key.title)
    (reference_label index).

Definition entry_target (members : list (JsString * Json)) : JsString :=
  first_text (member members Key.url) (member members Key.link) placeholder_url.

(** A source object whose four members are each absent or a text. *)
Definition text_entry (members : list (JsString * Json)) : Prop :=
  text_or_absent (member members Key.name)
  /\ text_or_absent (member members Key.title)
  /\ text_or_absent (member members Key.url)
  /\ text_or_absent (member members Key.link).

(** A text without a double quote: written between the double quotes of an
    attribute, it is not cut short. *)
Definition quote_free (s : JsString) : Prop := existsb (N.eqb 34) s = false.

(** A source object whose target text has no double quote. *)
Definition quote_free_target (members : list (JsString * Json)) : Prop :=
  quote_free (entry_target members).

(** One anchor per entry, in order, from an index on. *)
Fixpoint anchors (entries : list (list (JsString * Json))) (index : nat) : list JsString :=
  match entries with
  | [] => []
  | members :: rest =>
      source_item (serialize_text (entry_target members))
        (serialize_text (entry_label members index))
      :: anchors rest (S index)
  end.

(** What the page says of the sources. *)
Definition sources_shown (entries : list (list (JsString * Json))) (el : Elements) : Prop :=
  sourcesContainer_display el = js "block"
  /\ sourcesList_innerHTML el = join_empty (anchors entries 0).

Definition sources_hidden (el : Elements) : Prop :=
  sourcesContainer_display el = js "none".

(** ** The metadata *)

(** A number that is a non-negative integer below 2^53. *)
Definition Number_is_count (x : Number) (n : Z) : Prop :=
  match x with
  | S754_zero _ => n = 0%Z
  | S754_finite false m e => integer_magnitude m e = Some n /\ (n < 2 ^ 53)%Z
  | _ => False
  end.

(** [q] hundredths is the magnitude [m * 2^e] rounded to two decimals: exact
    for a non-negative exponent, else within half a hundredth, the upper one
    of two that are as near. *)
Definition rounds_to_hundredths (m : positive) (e q : Z) : Prop :=
  ((0 <= e)%Z -> q = (100 * Z.pos m * 2 ^ e)%Z)
  /\ ((e < 0)%Z ->
      (- 2 ^ (- e) < 2 * (q * 2 ^ (- e) - 100 * Z.pos m) <= 2 ^ (- e))%Z).

(** ** A host, a page and the data of the examples *)

(** The texts of a Chromium engine. The examples evaluate neither the
    shortest digits of a number nor a date, which this host leaves as a
    fixed text. *)
Definition host : Platform :=
  {| shortest_digits := fun _ => js "?";
     toLocaleString_jaJP := fun _ => js "Invalid Date";
     link_source_text := js "function link() { [native code] }";
     type_error_message := fun f =>
       match f with
       | ReadOfNullish Undefined name =>
           js "Cannot read properties of undefined (reading '" ++ name ++ js "')"
       | ReadOfNullish _ name =>
           js "Cannot read properties of null (reading '" ++ name ++ js "')"
       | NotAFunction _ => js "metadata.processingTime.toFixed is not a function"
       | NotPrimitive _ => js "Cannot convert object to primitive value"
       end;
     timeout_reason_message := js "signal timed out" |}.

(** The page before a search, with a text in the input: nothing is shown and
    the button is enabled. *)
Definition start_page (input : JsString) : World :=
  {| page :=
       {| queryInput_value := input;
          searchBtn_disabled := false;
          btnText_textContent := js "検索";
          resultSection_display := js "none";
          loadingState_display := js "none";
          resultContent_display := js "none";
          errorContent_display := js "none";
          answerText_textContent := [];
          metadata_innerHTML := [];
          sourcesContainer_display := js "none";
          sourcesList_innerHTML := [];
          errorMessage_textContent := [] |};
     events := [] |}.

(** The refund scenario: the query, the clock reading, the response. *)
Definition refund_query : JsString := js "What is the refund policy?".
Definition clock : JsString := js "2026-01-01T00:00:00.000Z".

Definition policy_entry : list (JsString * Json) :=
  [ (js "name", JString (js "Policy Doc"));
    (js "url", JString (js "https://x/policy")) ].

Definition refund_response : Json :=
  JObject [ (js "answer", JString (js "30 days"));
            (js "sources", JArray [JObject policy_entry]) ].

Definition respond (r : Response) : Env := {| now := clock; settles := Resolved r |}.

Definition refund_env : Env :=
  respond {| status := 200; statusText := js "OK"; body := BodyJson refund_response |}.

(** A response with status 500 and a status text. *)
Definition http_500 (text : JsString) : Response :=
  {| status := 500; statusText := text; body := BodyJson JNull |}.

(** A space, a tab, a line feed and an ideographic space. *)
Definition blank_input : JsString := [32; 9; 10; 12288]%N.

(** A source with a name and a null [url]. *)
Definition untargeted_entry : list (JsString * Json) :=
  [ (js "name", JString (js "Policy Doc")); (js "url", JNull) ].

(** A metadata object with a count of 3 and a time of 1.23. *)
Definition count_and_time : JsValue :=
  Val (JObject [ (js "fileCount", JNumber (Number_of_Z 3));
                 (js "processingTime",
                  JNumber (S754_finite false 5539427541665710 (-52))) ]).

(** A metadata object whose time is the negative zero. *)
Definition zero_time : JsValue :=
  Val (JObject [ (js "processingTime", JNumber (S754_zero true)) ]).

(** The page after a response whose metadata was rendered. *)
Definition after_metadata : World :=
  snd (displayResult host
         (Val (JObject [ (js "answer", JString (js "ok"));
                         (js "metadata", JObject [(js "fileCount", JNumber (Number_of_Z 3))]) ]))
         (start_page [])).

(** A body that does not read as JSON. *)
Definition syntax_error : JsError :=
  {| error_name := js "SyntaxError";
     error_message := js "Unexpected token '<'" |}.

(** The rejection of a request that cannot reach the server. *)
Definition unreachable : JsError :=
  {| error_name := js "TypeError"; error_message := js "Failed to fetch" |}.

(** The rejection of a request aborted by the user. *)
Definition user_abort : JsError :=
  {| error_name := js "AbortError";
     error_message := js "The user aborted a request." |}.

(** A source whose [url] closes the attribute and opens another. *)
Definition quoting_entry : list (JsString * Json) :=
  [ (js "name", JString (js "Policy Doc"));
    (js "url", JString (js "x" ++ dquote ++ js " onmouseover=alert(1) x=")) ].

(** The page after the response of the refund scenario was rendered. *)
Definition after_refund : World :=
  snd (displayResult host (Val refund_response) (start_page refund_query)).

(** ** The events of a run *)

(** The requests sent and the notices raised, in order. *)
Definition requests (evs : list Event) : list Request :=
  flat_map (fun ev => match ev with Fetch r => [r] | _ => [] end) evs.

Definition alerts (evs : list Event) : list JsString :=
  flat_map (fun ev => match ev with Alert text => [text] | _ => [] end) evs.

(** The request [callAPI] sends for a query. *)
Definition search_request (env : Env) (query : JsString) : Request :=
  {| request_url := endpoint API_CONFIG;
     request_method := js "POST";
     request_content_type := js "application/json";
     request_body := {| body_query := query; body_timestamp := now env |};
     request_signal_timeout := timeout API_CONFIG |}.

(** What [callAPI] logs after the request: the data of a response in
    200..299 whose body reads as JSON, else nothing. *)
Definition response_log (env : Env) : list Event :=
  match settles env with
  | Resolved r =>
      if ok r
      then match body r with
           | BodyJson data => [ConsoleLogResponse data]
           | BodyRejected _ => []
           end
      else []
  | Rejected _ => []
  end.

(** A body that is neither null nor an object. *)
Definition not_an_object (data : Json) : Prop :=
  match data with
  | JNull | JObject _ => False
  | _ => True
  end.

(** ** Tactics *)

(** Running a statement on a world. *)
Ltac run :=
  unfold bind, update, evaluate, ret, throw, emit, read, try_catch, try_finally in *;
  simpl in *.

(* ================================================================== *)
(** * Properties *)
(* ================================================================== *)

(** ** Strings and numerals *)

Lemma trim_start_blank s : blank s -> trim_start s = [].
Proof.
  induction 1 as [|c r Hc _ IH]; simpl; [reflexivity|].
  now rewrite Hc.
Qed.

Lemma trim_blank s : blank s -> trim s = [].
Proof.
  intros H. unfold trim, trim_end. now rewrite (trim_start_blank s H).
Qed.

Lemma trim_start_head s c r : trim_start s = c :: r -> is_whitespace c = false.
Proof.
  induction s as [|a s IH]; simpl; [discriminate|].
  destruct (is_whitespace a) eqn:Ha; [exact IH|].
  intros E. injection E as <- _. exact Ha.
Qed.

Lemma trim_start_nil_blank s : trim_start s = [] -> blank s.
Proof.
  induction s as [|a s IH]; simpl; [constructor|].
  destruct (is_whitespace a) eqn:Ha; [|discriminate].
  intros E. constructor; [exact Ha | exact (IH E)].
Qed.

(** The trimmed text is empty exactly for a text of white space only. *)
Lemma trim_nil_iff s : trim s = [] <-> blank s.
Proof.
  split; [|apply trim_blank].
  unfold trim, trim_end. intros E.
  destruct (trim_start s) as [|c r] eqn:Hs.
  - now apply trim_start_nil_blank.
  - exfalso.
    apply (f_equal (@rev N)) in E. rewrite rev_involutive in E. simpl in E.
    apply trim_start_nil_blank in E.
    pose proof (trim_start_head _ _ _ Hs) as Hc.
    unfold blank in E. rewrite Forall_forall in E.
    assert (In c (rev (c :: r))) as Hin by (rewrite <- in_rev; now left).
    specialize (E c Hin). congruence.
Qed.

Lemma str_eqb_eq a b : str_eqb a b = true <-> a = b.
Proof.
  revert b. induction a as [|x a IH]; intros [|y b]; simpl;
    try (split; [discriminate|congruence]); try tauto.
  rewrite andb_true_iff, N.eqb_eq, IH. split.
  - intros [-> ->]. reflexivity.
  - intros E. injection E as -> ->. auto.
Qed.

Lemma starts_with_app p s : starts_with p (p ++ s) = true.
Proof. induction p as [|c p IH]; simpl; [reflexivity|]. now rewrite N.eqb_refl. Qed.

Lemma includes_app_r p a s : includes p s = true -> includes p (a ++ s) = true.
Proof.
  intros H. induction a as [|c a IH]; simpl; [exact H|].
  rewrite IH. apply orb_true_r.
Qed.

Lemma includes_infix p a s : includes p (a ++ p ++ s) = true.
Proof.
  apply includes_app_r. destruct (p ++ s) eqn:E; simpl;
    rewrite <- E, starts_with_app; reflexivity.
Qed.

(** A text cannot begin inside a prefix that lacks its first code unit. *)
Lemma includes_skip c p a s :
  Forall (fun x => x <> c) a -> includes (c :: p) (a ++ s) = includes (c :: p) s.
Proof.
  induction 1 as [|x a Hx _ IH]; [reflexivity|].
  change (includes (c :: p) ((x :: a) ++ s))
    with ((c =? x)%N && starts_with p (a ++ s) || includes (c :: p) (a ++ s)).
  rewrite IH. destruct (N.eqb_spec c x); [congruence|reflexivity].
Qed.

Lemma pos_digits_range fuel z acc :
  Forall (fun c => (48 <= c <= 57)%N) acc ->
  Forall (fun c => (48 <= c <= 57)%N) (pos_digits fuel z acc).
Proof.
  revert z acc. induction fuel as [|f IH]; intros z acc H; simpl; [exact H|].
  assert (Forall (fun c => (48 <= c <= 57)%N) (digit_char (z mod 10) :: acc)) as H'.
  { constructor; [|exact H]. unfold digit_char.
    pose proof (Z.mod_pos_bound z 10 ltac:(lia)). lia. }
  destruct (z <? 10)%Z; [exact H'|]. now apply IH.
Qed.

(** A decimal numeral consists of digits. *)
Lemma decimal_digits z : Forall (fun c => (48 <= c <= 57)%N) (decimal z).
Proof. apply pos_digits_range. constructor. Qed.

(** The escaped text holds no angle bracket; a quote stays as it is. *)
Lemma serialize_text_no_bracket s :
  Forall (fun c => c <> 60%N /\ c <> 62%N) (serialize_text s).
Proof.
  induction s as [|c s IH]; simpl; [constructor|].
  apply Forall_app. split; [|exact IH]. unfold escape_unit.
  destruct (N.eqb_spec c 38); [vm_compute; repeat constructor; discriminate|].
  destruct (N.eqb_spec c 160); [vm_compute; repeat constructor; discriminate|].
  destruct (N.eqb_spec c 60); [vm_compute; repeat constructor; discriminate|].
  destruct (N.eqb_spec c 62); [vm_compute; repeat constructor; discriminate|].
  repeat constructor; assumption.
Qed.

Lemma serialize_text_quote : serialize_text dquote = dquote.
Proof. reflexivity. Qed.

(** The escaping adds no double quote to a text that has none. *)
Lemma serialize_text_quote_free s :
  quote_free s -> quote_free (serialize_text s).
Proof.
  unfold quote_free, serialize_text.
  induction s as [|c s IH]; simpl; [reflexivity|].
  intros H. apply orb_false_iff in H as [Hc Hs].
  rewrite existsb_app, (IH Hs), orb_false_r. unfold escape_unit.
  destruct (c =? 38)%N; [reflexivity|].
  destruct (c =? 160)%N; [reflexivity|].
  destruct (c =? 60)%N; [reflexivity|].
  destruct (c =? 62)%N; [reflexivity|].
  simpl. now rewrite Hc.
Qed.

Lemma nearest_hundredths_rounds m e :
  rounds_to_hundredths m e (nearest_hundredths m e).
Proof.
  unfold rounds_to_hundredths, nearest_hundredths.
  destruct (Z.leb_spec 0 e) as [He|He]; split; intros H; try lia.
  assert (0 < 2 ^ (- e))%Z as Hd by (apply Z.pow_pos_nonneg; lia).
  set (d := (2 ^ (- e))%Z) in *.
  pose proof (Z.div_mod (2 * 100 * Z.pos m + d) (2 * d) ltac:(lia)) as E.
  pose proof (Z.mod_pos_bound (2 * 100 * Z.pos m + d) (2 * d) ltac:(lia)) as B.
  set (q := ((2 * 100 * Z.pos m + d) / (2 * d))%Z) in *.
  nia.
Qed.

Lemma count_text digits x n :
  Number_is_count x n -> Number_toString digits x = decimal n.
Proof.
  destruct x as [s|s| |[] m e]; simpl; try tauto.
  - intros ->. reflexivity.
  - intros [-> Hn]. apply Z.ltb_lt in Hn. now rewrite Hn.
Qed.

(** The timeout message holds the configured 30000 ms as 30 seconds, on every
    platform. *)
Lemma timeout_message_text P :
  timeout_message P = js "リクエストがタイムアウトしました（30秒以上）".
Proof. reflexivity. Qed.

(** ** Values *)

Lemma no_text_falsy v : no_text v -> ToBoolean v = false.
Proof. intros [->|[->| ->]]; reflexivity. Qed.

Lemma Get_property P v k x : property v k = Some x -> Get P v k = Normal x.
Proof. intros H. unfold Get. now rewrite H. Qed.

Lemma Get_normal P v k x : Get P v k = Normal x -> property v k = Some x.
Proof. unfold Get. destruct (property v k); [congruence|discriminate]. Qed.

Lemma first_text_chain a b default :
  text_or_absent a -> text_or_absent b -> default <> [] ->
  or_else a (or_else b (Normal (Val (JString default))))
  = Normal (Val (JString (first_text a b default)))
  /\ first_text a b default <> [].
Proof.
  intros Ha Hb Hd. unfold or_else, first_text.
  destruct Ha as [->|[->|[[|c s] ->]]]; simpl;
    try (split; [reflexivity|discriminate]);
    destruct Hb as [->|[->|[[|c' s'] ->]]]; simpl;
    (split; [reflexivity|first [exact Hd|discriminate]]).
Qed.

Lemma reference_label_cons index : reference_label index <> [].
Proof. unfold reference_label. vm_compute (js _). discriminate. Qed.

Lemma anchors_length entries index : length (anchors entries index) = length entries.
Proof.
  revert index. induction entries as [|m r IH]; intros index; simpl; [reflexivity|].
  now rewrite IH.
Qed.

(** ** Rules for statements *)

Section Rules.

Context {A B : Type}.
Variables I Q Q' : Elements -> Prop.

Lemma preserves_ret (a : A) : preserves I (ret a).
Proof. intros w H. exact H. Qed.

Lemma preserves_throw e : preserves I (@throw A e).
Proof. intros w H. exact H. Qed.

Lemma preserves_evaluate (c : Completion A) : preserves I (evaluate c).
Proof. intros w H. exact H. Qed.

Lemma preserves_emit ev : preserves I (emit ev).
Proof. intros w H. exact H. Qed.

Lemma preserves_read (f : Elements -> A) : preserves I (read f).
Proof. intros w H. exact H. Qed.

Lemma preserves_update f : (forall el, I el -> I (f el)) -> preserves I (update f).
Proof. intros Hf w H. simpl. auto. Qed.

Lemma preserves_bind (m : M A) (k : A -> M B) :
  preserves I m -> (forall a, preserves I (k a)) -> preserves I (bind m k).
Proof.
  intros Hm Hk w H. unfold bind.
  specialize (Hm w H). destruct (m w) as [[a|e] w']; simpl in *.
  - now apply Hk.
  - exact Hm.
Qed.

Lemma preserves_bind_evaluate (c : Completion A) (k : A -> M B) :
  (forall a, c = Normal a -> preserves I (k a)) -> preserves I (bind (evaluate c) k).
Proof.
  intros Hk w H. unfold bind, evaluate. destruct c as [a|e]; simpl.
  - now apply Hk.
  - exact H.
Qed.

Lemma preserves_try_catch (m : M A) (h : JsError -> M A) :
  preserves I m -> (forall e, preserves I (h e)) -> preserves I (try_catch m h).
Proof.
  intros Hm Hh w H. unfold try_catch.
  specialize (Hm w H). destruct (m w) as [[a|e] w']; simpl in *.
  - exact Hm.
  - now apply Hh.
Qed.

Lemma establishes_bind (m : M A) (k : A -> M B) :
  establishes Q m -> (forall a, preserves Q (k a)) -> establishes Q (bind m k).
Proof.
  intros Hm Hk w. unfold bind.
  specialize (Hm w). destruct (m w) as [[a|e] w']; simpl in *.
  - now apply Hk.
  - exact Hm.
Qed.

Lemma establishes_bind_evaluate (c : Completion A) (k : A -> M B) a :
  c = Normal a -> establishes Q (k a) -> establishes Q (bind (evaluate c) k).
Proof. intros -> Hk w. apply Hk. Qed.

Lemma establishes_after_update f (k : M B) :
  establishes Q k -> establishes Q (bind (update f) (fun _ => k)).
Proof. intros Hk w. apply Hk. Qed.

Lemma establishes_returns (m : M A) : establishes Q m -> returns_with Q m.
Proof. intros H w a _. apply H. Qed.

Lemma returns_with_bind (m : M A) (k : A -> M B) :
  (forall a, returns_with Q (k a)) -> returns_with Q (bind m k).
Proof.
  intros Hk w b. unfold bind.
  destruct (m w) as [[a|e] w']; simpl.
  - apply Hk.
  - discriminate.
Qed.

(** After [try { m } catch (e) { h }] the page has what [m] leaves on normal
    completion or what the handler establishes. *)
Lemma establishes_try_catch (m : M A) (h : JsError -> M A) :
  returns_with Q m -> (forall e, establishes Q' (h e)) ->
  establishes (fun el => Q el \/ Q' el) (try_catch m h).
Proof.
  intros Hm Hh w. unfold try_catch.
  specialize (Hm w). destruct (m w) as [[a|e] w']; simpl in *.
  - left. now apply (Hm a).
  - right. apply Hh.
Qed.

Lemma total_try_catch (m : M A) (h : JsError -> M A) :
  (forall e, total (h e)) -> total (try_catch m h).
Proof.
  intros Hh w. unfold try_catch.
  destruct (m w) as [[a|e] w']; simpl.
  - now exists a.
  - apply Hh.
Qed.

(** [try { m } finally { c }], with a cleanup that never throws, completes as
    [m] does, in the world the cleanup makes of the one [m] leaves. *)
Lemma try_finally_total (m : M A) (c : M unit) w :
  total c ->
  fst (try_finally m c w) = fst (m w)
  /\ snd (try_finally m c w) = snd (c (snd (m w))).
Proof.
  intros Hc. unfold try_finally.
  destruct (m w) as [r w']. simpl.
  destruct (Hc w') as [[] E]. destruct (c w') as [[[]|e] w'']; simpl in *.
  - auto.
  - discriminate.
Qed.

End Rules.

(** The rules applied along the structure of a statement. *)
Ltac frame :=
  repeat first
    [ apply preserves_bind; [|intros ?]
    | apply preserves_ret | apply preserves_throw | apply preserves_evaluate
    | apply preserves_emit | apply preserves_read
    | apply preserves_try_catch; [|intros ?]
    | apply preserves_update; let el := fresh "el" in intros el; simpl; tauto
    | match goal with
      | |- preserves _ (if ?b then _ else _) => destruct b
      | |- preserves _ (match ?x with _ => _ end) => destruct x
      end ].

(* ================================================================== *)
(** ** The lifecycle of a submission *)
(* ================================================================== *)

Lemma bind_update {B} f (k : unit -> M B) w :
  bind (update f) k w = k tt {| page := f (page w); events := events w |}.
Proof. reflexivity. Qed.

Section Lifecycle.

Variable P : Platform.

Lemma displayMetadata_keeps_result metadata :
  preserves shows_result (displayMetadata P metadata).
Proof. unfold displayMetadata, shows_result. frame. Qed.

Lemma displaySources_keeps_result sources :
  preserves shows_result (displaySources P sources).
Proof. unfold displaySources, shows_result. frame. Qed.

(** [displayResult] as its three blocks after the displays are set. *)
Lemma displayResult_blocks data w :
  displayResult P data w
  = (update (set_loadingState_display (js "none")) ;;
     update (set_resultContent_display (js "block")) ;;
     update (set_errorContent_display (js "none")) ;;
     answer_block P data ;;
     metadata_block P data ;;
     sources_block P data) w.
Proof.
  unfold displayResult, answer_block, metadata_block, sources_block.
  unfold bind, evaluate, update. simpl.
  destruct (answer_of P data) as [answer|e]; [|reflexivity].
  destruct (to_textContent P answer) as [text|e]; [|reflexivity].
  destruct (Get P data Key.metadata) as [metadata|e]; reflexivity.
Qed.

Lemma blocks_keep_result data :
  preserves shows_result
    (answer_block P data ;; metadata_block P data ;; sources_block P data).
Proof.
  apply preserves_bind; [unfold answer_block, shows_result; frame|intros _].
  apply preserves_bind; [|intros _].
  - unfold metadata_block.
    apply preserves_bind; [apply preserves_evaluate|intros metadata].
    destruct (ToBoolean metadata);
      [apply displayMetadata_keeps_result|apply preserves_ret].
  - unfold sources_block.
    apply preserves_bind; [apply preserves_evaluate|intros sources].
    destruct (ToBoolean sources && isArray sources
              && (0 <? length (array_items sources))%nat).
    + apply displaySources_keeps_result.
    + unfold shows_result. frame.
Qed.

(** However [displayResult] completes, the page shows the result region and
    neither the loading indicator nor the error region. *)
Lemma displayResult_shows_result data :
  establishes shows_result (displayResult P data).
Proof.
  intros w. rewrite displayResult_blocks. rewrite !bind_update. cbv beta.
  apply blocks_keep_result. repeat split.
Qed.

(** [displayError] never throws and leaves the page showing the error region. *)
Lemma displayError_shows_error error :
  establishes shows_error (displayError error).
Proof. intros w. repeat split. Qed.

Lemma displayError_total error : total (displayError error).
Proof. intros w. exists tt. reflexivity. Qed.

Lemma restoreButtonState_total : total restoreButtonState.
Proof. intros w. exists tt. reflexivity. Qed.

Lemma restoreButtonState_keeps_displays w :
  let el := page w in
  let el' := page (snd (restoreButtonState w)) in
  loadingState_display el' = loadingState_display el
  /\ resultContent_display el' = resultContent_display el
  /\ errorContent_display el' = errorContent_display el.
Proof. repeat split. Qed.

Lemma attempt_settles env query :
  establishes (fun el => shows_result el \/ shows_error el) (attempt P env query).
Proof.
  apply establishes_try_catch.
  - apply returns_with_bind. intros response.
    apply establishes_returns, displayResult_shows_result.
  - intros e. apply displayError_shows_error.
Qed.

Lemma attempt_total env query : total (attempt P env query).
Proof. apply total_try_catch. apply displayError_total. Qed.

(** With a non-empty trimmed query the handler shows the loading state and
    runs the attempt under the cleanup. *)
Lemma handleSearch_submits env w :
  trim (queryInput_value (page w)) <> [] ->
  handleSearch P env w
  = try_finally (attempt P env (trim (queryInput_value (page w))))
      restoreButtonState (snd (showLoading w)).
Proof.
  intros H. unfold handleSearch, read. unfold bind at 1.
  destruct (trim (queryInput_value (page w))) as [|c q] eqn:E; [congruence|].
  reflexivity.
Qed.

(** C1. Every submission with a non-empty trimmed query ends with the page
    showing the result or the error, never the loading indicator, with the
    submit button enabled and its label restored: whether the request
    succeeds, fails or is abandoned, and whether rendering completes or
    throws. The handler itself completes normally. *)
Theorem handleSearch_leaves_loading env w :
  trim (queryInput_value (page w)) <> [] ->
  let r := handleSearch P env w in
  fst r = Normal tt
  /\ (shows_result (page (snd r)) \/ shows_error (page (snd r)))
  /\ loadingState_display (page (snd r)) = js "none"
  /\ searchBtn_disabled (page (snd r)) = false
  /\ btnText_textContent (page (snd r)) = js "検索".
Proof.
  intros H r. subst r. rewrite (handleSearch_submits env w H).
  set (query := trim _). set (w1 := snd (showLoading w)).
  destruct (try_finally_total (attempt P env query) restoreButtonState w1
              restoreButtonState_total)
    as [Hc Hw].
  rewrite Hc, Hw.
  pose proof (attempt_settles env query w1) as Hs.
  destruct (attempt_total env query w1) as [[] Ha].
  set (w2 := snd (attempt P env query w1)) in *.
  assert (shows_result (page (snd (restoreButtonState w2)))
          \/ shows_error (page (snd (restoreButtonState w2)))) as Hd.
  { destruct (restoreButtonState_keeps_displays w2) as (L & R & E).
    unfold shows_result, shows_error in *. simpl in *. tauto. }
  split; [exact Ha|]. split; [exact Hd|].
  split; [|split; reflexivity].
  destruct Hd as [(L & _)|(L & _)]; exact L.
Qed.

(** C2. For an input of white space only, the handler sends nothing and writes
    to no element: it raises the blocking notice and returns, so that the page
    is as it was. *)
Theorem handleSearch_blank_input env w :
  blank (queryInput_value (page w)) ->
  handleSearch P env w
  = (Normal tt,
     {| page := page w; events := events w ++ [Alert (js "質問を入力してください")] |}).
Proof.
  intros H. unfold handleSearch, read. unfold bind at 1.
  rewrite (trim_blank _ H). reflexivity.
Qed.

(* ================================================================== *)
(** ** The request client and the error display *)
(* ================================================================== *)

(** A rejection of the request is thrown on as it is, except one named
    [AbortError], which becomes the error with the timeout message. *)
Lemma callAPI_rejected env query w reason :
  settles env = Rejected reason ->
  fst (callAPI P env query w)
  = Throw (if str_eqb (error_name reason) (js "AbortError")
           then Error (timeout_message P) else reason).
Proof.
  intros H. unfold callAPI. run. rewrite H. simpl.
  destruct (str_eqb (error_name reason) (js "AbortError")); reflexivity.
Qed.

(** A response outside 200..299 makes the request client throw the error whose
    message carries the status code and the status text. *)
Lemma callAPI_http_error env query w r :
  settles env = Resolved r ->
  ok r = false ->
  fst (callAPI P env query w) = Throw (Error (http_error_message r)).
Proof.
  intros H Hok. unfold callAPI. run. rewrite H, Hok. reflexivity.
Qed.

(** When the request client throws, the page ends showing the error region
    with the text of that error. *)
Lemma handleSearch_failure env w e :
  trim (queryInput_value (page w)) <> [] ->
  fst (callAPI P env (trim (queryInput_value (page w))) (snd (showLoading w)))
  = Throw e ->
  let el := page (snd (handleSearch P env w)) in
  shows_error el /\ errorMessage_textContent el = error_text e.
Proof.
  intros H Hc. rewrite (handleSearch_submits env w H).
  unfold try_finally, attempt, try_catch, bind.
  destruct (callAPI P env _ _) as [[a|e'] w']; simpl in Hc;
    [discriminate|injection Hc as ->].
  simpl. repeat split.
Qed.

(** The message of an HTTP error includes ['Failed to fetch'] exactly when the
    status text does. *)
Lemma http_error_marker r :
  includes (js "Failed to fetch") (http_error_message r)
  = includes (js "Failed to fetch") (statusText r).
Proof.
  unfold http_error_message.
  change (js "Failed to fetch") with (70%N :: js "ailed to fetch").
  rewrite includes_skip by (vm_compute; repeat constructor; discriminate).
  rewrite includes_skip.
  2:{ eapply Forall_impl; [|apply decimal_digits]. simpl. intros c Hc. lia. }
  apply (includes_skip 70%N _ (js " ")). repeat constructor. discriminate.
Qed.

Lemma http_error_text r :
  error_text (Error (http_error_message r))
  = if includes (js "Failed to fetch") (statusText r)
    then connection_message else http_error_message r.
Proof.
  unfold error_text. cbn [error_message Error].
  rewrite http_error_marker. reflexivity.
Qed.

(** A request abandoned by the timeout of its signal rejects with the
    [TimeoutError] reason, whose name is not [AbortError]: the request client
    throws it on unchanged and the page shows its text. *)
Lemma timed_out_request_shows_reason env w :
  trim (queryInput_value (page w)) <> [] ->
  settles env = Rejected (timeout_reason P) ->
  let el := page (snd (handleSearch P env w)) in
  shows_error el /\ errorMessage_textContent el = error_text (timeout_reason P).
Proof.
  intros H Hs. apply handleSearch_failure; [exact H|].
  rewrite (callAPI_rejected env _ _ _ Hs). reflexivity.
Qed.

(** A rejection named [AbortError] is what the request client turns into the
    error with the timeout message, which the page then shows. *)
Lemma aborted_request_shows_timeout_message env w reason :
  trim (queryInput_value (page w)) <> [] ->
  settles env = Rejected reason ->
  error_name reason = js "AbortError" ->
  let el := page (snd (handleSearch P env w)) in
  shows_error el /\ errorMessage_textContent el = timeout_message P.
Proof.
  intros H Hs Hn.
  assert (error_text (Error (timeout_message P)) = timeout_message P) as <-
    by (vm_compute; reflexivity).
  apply handleSearch_failure; [exact H|].
  rewrite (callAPI_rejected env _ _ _ Hs), Hn. reflexivity.
Qed.

(** C8, as amended. For every response with a status outside 200..299 the
    request client throws the error whose message carries the status code and
    the status text, and the page ends showing the error region. The text shown
    is that message, unless the status text includes ['Failed to fetch'], in
    which case it is the connection text; so a response with status 500 whose
    status text does not include ['Failed to fetch'] shows a message that
    includes [500]. *)
Theorem http_error_surfaced env w r :
  trim (queryInput_value (page w)) <> [] ->
  settles env = Resolved r ->
  ok r = false ->
  let query := trim (queryInput_value (page w)) in
  let el := page (snd (handleSearch P env w)) in
  fst (callAPI P env query (snd (showLoading w)))
  = Throw (Error (http_error_message r))
  /\ shows_error el
  /\ errorMessage_textContent el
     = (if includes (js "Failed to fetch") (statusText r)
        then connection_message else http_error_message r)
  /\ (status r = 500%N ->
      includes (js "Failed to fetch") (statusText r) = false ->
      includes (js "500") (errorMessage_textContent el) = true).
Proof.
  intros H Hs Hok query el.
  pose proof (callAPI_http_error env query (snd (showLoading w)) r Hs Hok) as Hc.
  destruct (handleSearch_failure env w _ H Hc) as [He Hm].
  fold el in He, Hm. rewrite http_error_text in Hm.
  repeat split; try assumption; try apply He.
  intros H500 Hmark. rewrite Hm, Hmark.
  unfold http_error_message. rewrite H500.
  apply (includes_infix (js "500") (js "HTTPエラー: ")).
Qed.

End Lifecycle.

(* ================================================================== *)
(** ** Rendering a response *)
(* ================================================================== *)

Section Rendering.

Variable P : Platform.

(** *** The answer text *)

Lemma answer_of_displayed data s :
  displayed_answer data s ->
  answer_of P data = Normal (Val (JString s)) /\ s <> [].
Proof.
  unfold answer_of, andThen, or_else.
  intros [t Ha Ht|t (a & Ha & Na) Hm Ht|(a & Ha & Na) (m & Hm & Nm)].
  - rewrite (Get_property P _ _ _ Ha). destruct t; [congruence|]. auto.
  - rewrite (Get_property P _ _ _ Ha), (no_text_falsy _ Na),
      (Get_property P _ _ _ Hm).
    destruct t; [congruence|]. auto.
  - rewrite (Get_property P _ _ _ Ha), (no_text_falsy _ Na),
      (Get_property P _ _ _ Hm), (no_text_falsy _ Nm).
    split; [reflexivity|]. vm_compute. discriminate.
Qed.

Lemma metadata_block_keeps_answer data s :
  preserves (fun el => answerText_textContent el = s) (metadata_block P data).
Proof. unfold metadata_block, displayMetadata. frame. Qed.

Lemma sources_block_keeps_answer data s :
  preserves (fun el => answerText_textContent el = s) (sources_block P data).
Proof. unfold sources_block, displaySources. frame. Qed.

(** Every body that is not [null], with an [answer] and a [message] that are
    each absent or a text, has a text by one of the three rules. *)
Lemma displayed_answer_exists data a m :
  property data Key.answer = Some a ->
  property data Key.message = Some m ->
  text_or_absent a -> text_or_absent m ->
  exists s, displayed_answer data s.
Proof.
  intros Ha Hm Ta Tm.
  assert (no_text a \/ exists c s, a = Val (JString (c :: s))) as [Na|(c & s & ->)].
  { destruct Ta as [->|[->|([|c s] & ->)]]; unfold no_text; eauto 6. }
  - assert (no_text m \/ exists c s, m = Val (JString (c :: s))) as [Nm|(c & s & ->)].
    { destruct Tm as [->|[->|([|c s] & ->)]]; unfold no_text; eauto 6. }
    + exists fallback_answer. apply fallback_last; [exists a|exists m]; auto.
    + exists (c :: s). apply message_second; [exists a; auto|exact Hm|discriminate].
  - exists (c :: s). apply answer_first; [exact Ha|discriminate].
Qed.

(** A body with no property to read, which of the JSON values is [null]
    alone: [displayResult] throws at the read of [answer], before it writes the
    answer text. *)
Lemma displayResult_unreadable data w :
  property data Key.answer = None ->
  fst (displayResult P data w)
  = Throw (TypeError P (ReadOfNullish data (js "answer")))
  /\ answerText_textContent (page (snd (displayResult P data w)))
     = answerText_textContent (page w).
Proof.
  intros H.
  unfold displayResult, bind, update, evaluate, answer_of, Get, andThen.
  rewrite H. split; reflexivity.
Qed.

(** C5, as amended. For every response body other than [null]: a non-empty
    [answer] text is shown verbatim, as text content; when [answer] is absent,
    null or empty, a non-empty [message] text is shown; when both are absent,
    null or empty, the fixed text is shown; this holds however the rest of the
    rendering completes, and one of the three applies whenever [answer] and
    [message] are each absent or a text. For the [null] body none of them
    holds: [displayResult] throws at the read of [answer] and the answer text
    is as it was. *)
Theorem answer_precedence data w :
  let shown := answerText_textContent (page (snd (displayResult P data w))) in
  (forall s, displayed_answer data s -> shown = s)
  /\ (forall a m,
        property data Key.answer = Some a ->
        property data Key.message = Some m ->
        text_or_absent a -> text_or_absent m ->
        exists s, displayed_answer data s)
  /\ (property data Key.answer = None ->
      fst (displayResult P data w)
      = Throw (TypeError P (ReadOfNullish data (js "answer")))
      /\ shown = answerText_textContent (page w)).
Proof.
  intros shown. split; [|split].
  - intros s H. destruct (answer_of_displayed data s H) as [Ha Hs].
    unfold shown. rewrite displayResult_blocks.
    revert w shown.
    apply (establishes_after_update (fun el => answerText_textContent el = s)).
    do 2 apply establishes_after_update.
    apply establishes_bind.
    + unfold answer_block. eapply establishes_bind_evaluate; [exact Ha|].
      eapply establishes_bind_evaluate; [|intros w; reflexivity].
      destruct s; [congruence|reflexivity].
    + intros _. apply preserves_bind.
      * apply metadata_block_keeps_answer.
      * intros _. apply sources_block_keeps_answer.
  - apply displayed_answer_exists.
  - apply displayResult_unreadable.
Qed.

(** *** The metadata block *)

Lemma answer_block_keeps_metadata data v :
  preserves (fun el => metadata_innerHTML el = v) (answer_block P data).
Proof. unfold answer_block. frame. Qed.

Lemma sources_block_keeps_metadata data v :
  preserves (fun el => metadata_innerHTML el = v) (sources_block P data).
Proof. unfold sources_block, displaySources. frame. Qed.

(** An object with none of the three members gives no entry. *)
Lemma metadata_items_none members :
  member members Key.fileCount = Undefined ->
  member members Key.timestamp = Undefined ->
  member members Key.processingTime = Undefined ->
  metadata_items P (Val (JObject members)) = Normal [].
Proof.
  intros H1 H2 H3. unfold metadata_items, Get, property, andThen.
  rewrite H1, H2, H3. reflexivity.
Qed.

(** C10. For every response whose [metadata] is an object with none of
    [fileCount], [timestamp] and [processingTime], [displayResult] leaves the
    markup of the metadata region as it was: what an earlier response rendered
    there stays in the new result. *)
Theorem stale_metadata_persists data members w :
  property data Key.metadata = Some (Val (JObject members)) ->
  member members Key.fileCount = Undefined ->
  member members Key.timestamp = Undefined ->
  member members Key.processingTime = Undefined ->
  metadata_innerHTML (page (snd (displayResult P data w)))
  = metadata_innerHTML (page w).
Proof.
  intros Hg H1 H2 H3. rewrite displayResult_blocks.
  set (v := metadata_innerHTML (page w)).
  assert (preserves (fun el => metadata_innerHTML el = v)
    (update (set_loadingState_display (js "none")) ;;
     update (set_resultContent_display (js "block")) ;;
     update (set_errorContent_display (js "none")) ;;
     answer_block P data ;; metadata_block P data ;; sources_block P data)) as Hp;
    [|apply Hp; reflexivity].
  clearbody v. clear w.
  apply preserves_bind; [frame|intros _].
  apply preserves_bind; [frame|intros _].
  apply preserves_bind; [frame|intros _].
  apply preserves_bind; [apply answer_block_keeps_metadata|intros _].
  apply preserves_bind; [|intros _; apply sources_block_keeps_metadata].
  unfold metadata_block. apply preserves_bind_evaluate. intros metadata E.
  rewrite (Get_property P _ _ _ Hg) in E. injection E as <-. simpl.
  unfold displayMetadata. rewrite (metadata_items_none members H1 H2 H3).
  apply preserves_bind_evaluate. intros items E. injection E as <-.
  apply preserves_ret.
Qed.

(** The entries [displayMetadata] builds when it does not throw: at most one
    for each of the three members, in the order of the source. *)
Lemma metadata_items_shape metadata items :
  metadata_items P metadata = Normal items ->
  exists fileCount timestamp processingTime i1 i2 i3,
    Get P metadata Key.fileCount = Normal fileCount
    /\ Get P metadata Key.timestamp = Normal timestamp
    /\ Get P metadata Key.processingTime = Normal processingTime
    /\ items = i1 ++ i2 ++ i3
    /\ (if is_defined fileCount
        then exists count, ToString P fileCount = Normal count
                           /\ i1 = [fileCount_item count]
        else i1 = [])
    /\ (if ToBoolean timestamp
        then exists timeStr, Date_toLocaleString P timestamp = Normal timeStr
                             /\ i2 = [timestamp_item timeStr]
        else i2 = [])
    /\ (if is_defined processingTime
        then exists seconds, toFixed2 P processingTime = Normal seconds
                             /\ i3 = [processingTime_item seconds]
        else i3 = []).
Proof.
  unfold metadata_items, andThen.
  destruct (Get P metadata Key.fileCount) as [fileCount|]; [|discriminate].
  destruct (Get P metadata Key.timestamp) as [timestamp|] eqn:Ets.
  2:{ destruct (is_defined fileCount); [destruct (ToString P fileCount)|];
        discriminate. }
  destruct (Get P metadata Key.processingTime) as [processingTime|] eqn:Ept.
  2:{ destruct (is_defined fileCount); [destruct (ToString P fileCount)|];
        try discriminate;
        (destruct (ToBoolean timestamp);
         [destruct (Date_toLocaleString P timestamp)|]; discriminate). }
  intros H.
  exists fileCount, timestamp, processingTime.
  destruct (is_defined fileCount);
    [destruct (ToString P fileCount) as [count|]; [|discriminate]|];
    (destruct (ToBoolean timestamp);
     [destruct (Date_toLocaleString P timestamp) as [timeStr|]; [|discriminate]|]);
    (destruct (is_defined processingTime);
     [destruct (toFixed2 P processingTime) as [seconds|]; [|discriminate]|]);
    injection H as <-;
    repeat match goal with
           | |- exists i : list JsString, _ => eexists
           end;
    repeat split; eauto; simpl; reflexivity.
Qed.

Lemma displayMetadata_returns metadata w :
  fst (displayMetadata P metadata w) = Normal tt ->
  exists items,
    metadata_items P metadata = Normal items
    /\ (items <> [] ->
        metadata_innerHTML (page (snd (displayMetadata P metadata w)))
        = join_empty items).
Proof.
  unfold displayMetadata, bind, evaluate.
  destruct (metadata_items P metadata) as [items|e]; simpl; [|discriminate].
  intros _. exists items. split; [reflexivity|].
  destruct items; [congruence|]. reflexivity.
Qed.

(** The seconds text of a finite number below 10^21 in magnitude: the sign,
    the integer part, a point and two digits, for the nearest hundredths. *)
Lemma toFixed2_two_decimals s m e :
  at_least_1e21 m e = false ->
  exists q,
    Number_toFixed2 (shortest_digits P) (S754_finite s m e)
    = sign_prefix s ++ decimal (q / 100) ++ js "."
      ++ [digit_char (q / 10 mod 10); digit_char (q mod 10)]
    /\ rounds_to_hundredths m e q.
Proof.
  intros H. exists (nearest_hundredths m e).
  split; [|apply nearest_hundredths_rounds].
  unfold Number_toFixed2. rewrite H. reflexivity.
Qed.

(** Only a number has a fixed notation. *)
Lemma toFixed2_number v seconds :
  toFixed2 P v = Normal seconds ->
  exists x, v = Val (JNumber x)
            /\ seconds = Number_toFixed2 (shortest_digits P) x.
Proof.
  destruct v as [| |[]]; simpl; try discriminate.
  intros E. injection E as <-. eauto.
Qed.

(** The seconds text of a zero, of either sign. *)
Lemma toFixed2_zero s :
  Number_toFixed2 (shortest_digits P) (S754_zero s) = js "0.00".
Proof. vm_compute. reflexivity. Qed.

(** C9, as amended. Whenever [displayMetadata] completes: a [fileCount] that
    is present is the first entry of the block, with its string conversion as
    the count, which for a non-negative integer below 2^53 is its decimal
    numeral; a [processingTime] that is present is a number and is the last
    entry, in the notation of [toFixed(2)], which for a finite number below
    10^21 in magnitude has exactly two decimals: [0.00] for a zero of either
    sign, else the value rounded to the nearest hundredth. *)
Theorem metadata_count_and_time metadata w :
  fst (displayMetadata P metadata w) = Normal tt ->
  let html := metadata_innerHTML (page (snd (displayMetadata P metadata w))) in
  (forall v,
     property metadata Key.fileCount = Some v -> is_defined v = true ->
     exists count rest,
       ToString P v = Normal count
       /\ html = fileCount_item count ++ rest
       /\ (forall x n, v = Val (JNumber x) -> Number_is_count x n ->
           count = decimal n))
  /\ (forall v,
        property metadata Key.processingTime = Some v -> is_defined v = true ->
        exists x before,
          v = Val (JNumber x)
          /\ html = before
                    ++ processingTime_item (Number_toFixed2 (shortest_digits P) x)
          /\ (forall s,
                x = S754_zero s ->
                Number_toFixed2 (shortest_digits P) x = js "0.00")
          /\ (forall s m e,
                x = S754_finite s m e -> at_least_1e21 m e = false ->
                exists q,
                  Number_toFixed2 (shortest_digits P) x
                  = sign_prefix s ++ decimal (q / 100) ++ js "."
                    ++ [digit_char (q / 10 mod 10); digit_char (q mod 10)]
                  /\ rounds_to_hundredths m e q)).
Proof.
  intros Hc html.
  destruct (displayMetadata_returns metadata w Hc) as (items & Hi & Hh).
  fold html in Hh.
  destruct (metadata_items_shape metadata items Hi)
    as (fc & ts & pt & i1 & i2 & i3 & Gfc & Gts & Gpt & -> & H1 & H2 & H3).
  split.
  - intros v Gv Hv. rewrite (Get_property P _ _ _ Gv) in Gfc.
    injection Gfc as <-. rewrite Hv in H1.
    destruct H1 as (count & Hcount & ->).
    exists count, (join_empty (i2 ++ i3)).
    split; [exact Hcount|]. split.
    + rewrite Hh by discriminate. unfold join_empty. simpl. reflexivity.
    + intros x n -> Hn. cbn [ToString Json_toString] in Hcount.
      injection Hcount as <-. apply count_text, Hn.
  - intros v Gv Hv. rewrite (Get_property P _ _ _ Gv) in Gpt.
    injection Gpt as <-. rewrite Hv in H3.
    destruct H3 as (seconds & Hsec & ->).
    destruct (toFixed2_number v seconds Hsec) as (x & -> & ->).
    exists x, (join_empty (i1 ++ i2)).
    split; [reflexivity|]. split; [|split].
    + rewrite Hh by (destruct i1; [destruct i2|]; discriminate).
      unfold join_empty. rewrite app_assoc, concat_app. simpl.
      now rewrite app_nil_r.
    + intros s ->. apply toFixed2_zero.
    + intros s m e -> Hlt. apply toFixed2_two_decimals, Hlt.
Qed.

(** A [fileCount] that is a text goes into the markup as it is. *)
Lemma fileCount_text_inserted members text w :
  member members Key.fileCount = Val (JString text) ->
  member members Key.timestamp = Undefined ->
  member members Key.processingTime = Undefined ->
  metadata_innerHTML (page (snd (displayMetadata P (Val (JObject members)) w)))
  = fileCount_item text.
Proof.
  intros H1 H2 H3.
  unfold displayMetadata, metadata_items, Get, property, andThen, bind, evaluate.
  rewrite H1, H2, H3. simpl. unfold join_empty. simpl. now rewrite app_nil_r.
Qed.

(** *** The sources *)

(** The anchor of a source object with text members. *)
Lemma source_html_text members index :
  text_entry members ->
  source_html P (JObject members) index
  = Normal (source_item (serialize_text (entry_target members))
              (serialize_text (entry_label members index))).
Proof.
  intros (Hn & Ht & Hu & Hl). unfold source_html, Get, property, andThen.
  destruct (first_text_chain _ _ (reference_label index) Hn Ht
              (reference_label_cons index)) as [-> Hlabel].
  destruct (first_text_chain _ _ placeholder_url Hu Hl
              ltac:(vm_compute; discriminate)) as [-> Htarget].
  unfold entry_label, entry_target.
  destruct (first_text (member members Key.name) _ _) as [|c s]; [congruence|].
  destruct (first_text (member members Key.url) _ _) as [|c' s']; [congruence|].
  reflexivity.
Qed.

Lemma map_sources_text entries index :
  Forall text_entry entries ->
  map_sources P (map JObject entries) index = Normal (anchors entries index).
Proof.
  intros H. revert index.
  induction H as [|members rest Hm _ IH]; intros index; simpl; [reflexivity|].
  rewrite (source_html_text members index Hm). simpl.
  rewrite IH. reflexivity.
Qed.

(** [displaySources] on text entries: the region is shown and the list is the
    anchors of the entries, one each, in order. *)
Lemma displaySources_text entries w :
  Forall text_entry entries ->
  displaySources P (map JObject entries) w
  = (Normal tt,
     {| page := set_sourcesList_innerHTML (join_empty (anchors entries 0))
                  (set_sourcesContainer_display (js "block") (page w));
        events := events w |}).
Proof.
  intros H. unfold displaySources, bind, update, evaluate. simpl.
  rewrite (map_sources_text entries 0 H). reflexivity.
Qed.

Lemma sources_block_shows data entries :
  property data Key.sources = Some (Val (JArray (map JObject entries))) ->
  entries <> [] ->
  Forall text_entry entries ->
  establishes (sources_shown entries) (sources_block P data).
Proof.
  intros Hg Hne Ht w. unfold sources_block.
  unfold bind, evaluate. rewrite (Get_property P _ _ _ Hg). simpl.
  destruct entries as [|m r]; [congruence|]. simpl.
  change (JObject m :: map JObject r) with (map JObject (m :: r)).
  rewrite (displaySources_text (m :: r) w Ht). split; reflexivity.
Qed.

Lemma sources_block_hides data v :
  property data Key.sources = Some v ->
  isArray v = false \/ v = Val (JArray []) ->
  establishes sources_hidden (sources_block P data).
Proof.
  intros Hg Hv w. unfold sources_block.
  unfold bind, evaluate. rewrite (Get_property P _ _ _ Hg). simpl.
  assert (ToBoolean v && isArray v && (0 <? length (array_items v))%nat = false) as ->.
  { destruct Hv as [Hv| ->]; [rewrite Hv|reflexivity]. apply andb_false_intro1.
    apply andb_false_r. }
  reflexivity.
Qed.

(** What the sources block establishes holds after a [displayResult] that
    completes. *)
Lemma displayResult_ends_with_sources Q data :
  establishes Q (sources_block P data) -> returns_with Q (displayResult P data).
Proof.
  intros H w a. rewrite displayResult_blocks. revert w a.
  change (returns_with Q
    (update (set_loadingState_display (js "none")) ;;
     update (set_resultContent_display (js "block")) ;;
     update (set_errorContent_display (js "none")) ;;
     answer_block P data ;; metadata_block P data ;; sources_block P data)).
  do 5 (apply returns_with_bind; intros _).
  now apply establishes_returns.
Qed.

(** C6, as amended. For every response that [displayResult] renders to the
    end: when [sources] is a non-empty array of objects whose [name], [title],
    [url] and [link] are each absent or a text, and whose target text has no
    double quote, the region is shown and the markup of the list is one anchor
    per entry, in order, the entry at index [i] with the escaped first
    non-empty text of [name], [title], else the label of number [i + 1], and
    with the escaped first non-empty text of [url], [link], else the
    placeholder, as the value of its [href], which has no double quote and so
    ends at the closing quote of the template; when [sources] is not an array
    or is an empty one, the region is hidden. *)
Theorem sources_rendering data v w :
  property data Key.sources = Some v ->
  fst (displayResult P data w) = Normal tt ->
  let el := page (snd (displayResult P data w)) in
  (forall entries,
     v = Val (JArray (map JObject entries)) -> entries <> [] ->
     Forall text_entry entries ->
     Forall quote_free_target entries ->
     sources_shown entries el
     /\ length (anchors entries 0) = length entries
     /\ Forall (fun members => quote_free (serialize_text (entry_target members)))
          entries)
  /\ (isArray v = false \/ v = Val (JArray []) -> sources_hidden el).
Proof.
  intros Hg Hc el. split.
  - intros entries -> Hne Ht Hq. split; [|split; [apply anchors_length|]].
    + apply (displayResult_ends_with_sources (sources_shown entries) data
               (sources_block_shows data entries Hg Hne Ht) w tt Hc).
    + revert Hq. apply Forall_impl. intros members.
      apply serialize_text_quote_free.
  - intros Hv.
    apply (displayResult_ends_with_sources sources_hidden data
             (sources_block_hides data v Hg Hv) w tt Hc).
Qed.

(** C7, as amended. For every source object whose members are each absent or
    a text: with neither a non-empty [url] nor a non-empty [link] the target of
    its anchor is the placeholder; a non-empty [url] without a double quote is
    the target, escaped, whatever its scheme, and the escaped text has no
    double quote either. *)
Theorem source_target members index :
  text_entry members ->
  (no_text (member members Key.url) -> no_text (member members Key.link) ->
   source_html P (JObject members) index
   = Normal (source_item placeholder_url
               (serialize_text (entry_label members index))))
  /\ (forall c s,
        member members Key.url = Val (JString (c :: s)) ->
        quote_free (c :: s) ->
        source_html P (JObject members) index
        = Normal (source_item (serialize_text (c :: s))
                    (serialize_text (entry_label members index)))
        /\ quote_free (serialize_text (c :: s))).
Proof.
  intros Ht. rewrite (source_html_text members index Ht). unfold entry_target.
  split.
  - intros [->|[->| ->]] [->|[->| ->]]; reflexivity.
  - intros c s -> Hq. split; [reflexivity|].
    apply serialize_text_quote_free, Hq.
Qed.

End Rendering.

(* ================================================================== *)
(** ** Scenarios *)
(* ================================================================== *)

(** The refund scenario end to end: the answer is shown, with one link
    labelled [Policy Doc] to [https://x/policy], after one request that
    carries the query. *)
Example refund_scenario :
  let r := handleSearch host refund_env (start_page refund_query) in
  let el := page (snd r) in
  shows_result el
  /\ answerText_textContent el = js "30 days"
  /\ sourcesContainer_display el = js "block"
  /\ sourcesList_innerHTML el
     = source_item (js "https://x/policy") (js "Policy Doc")
  /\ filter (fun ev => match ev with Fetch _ => true | _ => false end) (events (snd r))
     = [Fetch {| request_url := js "http://localhost:5678/webhook/ai-search";
                 request_method := js "POST";
                 request_content_type := js "application/json";
                 request_body := {| body_query := refund_query;
                                    body_timestamp := clock |};
                 request_signal_timeout := 30000 |}].
Proof. vm_compute. repeat split. Qed.

(** The helper of the source renders its mock data, on every platform. *)
Example mock_result P :
  let el := page (snd (showMockResult P refund_env (start_page []))) in
  shows_result el
  /\ metadata_innerHTML el
     = fileCount_item (js "3")
       ++ timestamp_item (toLocaleString_jaJP P (Val (JString clock)))
       ++ processingTime_item (js "1.23")
  /\ submit_ready el.
Proof. vm_compute. repeat split. Qed.

(** C1, at the refund scenario. *)
Lemma handleSearch_leaves_loading_witness :
  let r := handleSearch host refund_env (start_page refund_query) in
  fst r = Normal tt
  /\ (shows_result (page (snd r)) \/ shows_error (page (snd r)))
  /\ loadingState_display (page (snd r)) = js "none"
  /\ searchBtn_disabled (page (snd r)) = false
  /\ btnText_textContent (page (snd r)) = js "検索".
Proof.
  apply (handleSearch_leaves_loading host refund_env (start_page refund_query)).
  vm_compute. discriminate.
Defined.

(** C2, at an input of four kinds of white space. *)
Lemma handleSearch_blank_input_witness :
  handleSearch host refund_env (start_page blank_input)
  = (Normal tt,
     {| page := page (start_page blank_input);
        events := events (start_page blank_input)
                  ++ [Alert (js "質問を入力してください")] |}).
Proof.
  apply (handleSearch_blank_input host refund_env (start_page blank_input)).
  repeat constructor.
Defined.

(** C3. The failing input: the request is abandoned by the timeout of its
    signal, before the response or while the body is read. The page then shows
    the text of the platform's [TimeoutError], which is not the timeout message
    of the request client and does not contain the configured duration. *)
Theorem timeout_text_lacks_duration :
  let before_response := {| now := clock; settles := Rejected (timeout_reason host) |} in
  let during_body :=
    respond {| status := 200; statusText := js "OK";
               body := BodyRejected (timeout_reason host) |} in
  let shown env :=
    errorMessage_textContent
      (page (snd (handleSearch host env (start_page refund_query)))) in
  timeout_message host = js "リクエストがタイムアウトしました（30秒以上）"
  /\ shown before_response = js "signal timed out"
  /\ shown during_body = js "signal timed out"
  /\ includes (js "30") (js "signal timed out") = false.
Proof. vm_compute. repeat split. Qed.

(** C4. The failing input: a [fileCount] that is a text with markup. The
    metadata region receives it as it is, where [escapeHtml], which the name
    and the target of a source go through, replaces its angle brackets. *)
Theorem fileCount_markup_unescaped :
  let payload := js "<img src=x onerror=alert(1)>" in
  let escaped := js "&lt;img src=x onerror=alert(1)&gt;" in
  let data :=
    JObject [ (js "answer", JString (js "ok"));
              (js "metadata", JObject [(js "fileCount", JString payload)]) ] in
  let el := page (snd (displayResult host (Val data) (start_page refund_query))) in
  metadata_innerHTML el = fileCount_item payload
  /\ includes (js "<img") (metadata_innerHTML el) = true
  /\ escapeHtml host (Val (JString payload)) = Normal escaped
  /\ source_html host
       (JObject [(js "name", JString payload); (js "url", JString payload)]) 0
     = Normal (source_item escaped escaped).
Proof. vm_compute. repeat split. Qed.

(** C5, the counterexample: a response with an empty [answer] and a [message]
    shows the message, not the answer it contains. *)
Lemma empty_answer_shows_message :
  let data :=
    Val (JObject [ (js "answer", JString []);
                   (js "message", JString (js "See the FAQ")) ]) in
  property data Key.answer = Some (Val (JString []))
  /\ answerText_textContent
       (page (snd (displayResult host data (start_page refund_query))))
     = js "See the FAQ".
Proof. vm_compute. split; reflexivity. Qed.

(** C5 as amended, at the refund scenario and at the [null] body. *)
Lemma answer_precedence_witness :
  answerText_textContent
    (page (snd (displayResult host (Val refund_response) (start_page refund_query))))
  = js "30 days"
  /\ fst (displayResult host (Val JNull) (start_page refund_query))
     = Throw (TypeError host (ReadOfNullish (Val JNull) (js "answer")))
  /\ answerText_textContent
       (page (snd (displayResult host (Val JNull) (start_page refund_query))))
     = [].
Proof.
  split.
  - apply (proj1 (answer_precedence host (Val refund_response)
                    (start_page refund_query))).
    apply answer_first; [reflexivity|vm_compute; discriminate].
  - apply (proj2 (proj2 (answer_precedence host (Val JNull)
                           (start_page refund_query)))).
    reflexivity.
Defined.

(** C6, the counterexample: an entry with an empty [name] and a [title] is
    labelled with the title; and with a [null] entry in the array nothing is
    rendered, [displayResult] throws and the list is as it was. *)
Lemma sources_counterexample :
  let titled := [ (js "name", JString []); (js "title", JString (js "Manual")) ] in
  let with_null :=
    JObject [ (js "answer", JString (js "ok")); (js "sources", JArray [JNull]) ] in
  let r := displayResult host (Val with_null) (start_page refund_query) in
  member titled Key.name = Val (JString [])
  /\ source_html host (JObject titled) 0
     = Normal (source_item placeholder_url (js "Manual"))
  /\ fst r = Throw (TypeError host (ReadOfNullish (Val JNull) (js "name")))
  /\ sourcesList_innerHTML (page (snd r)) = [].
Proof. vm_compute. repeat split. Qed.

Lemma policy_entry_text : text_entry policy_entry.
Proof.
  unfold text_entry, text_or_absent. vm_compute.
  repeat split; first [left; reflexivity | right; right; eexists; reflexivity].
Qed.

(** C6 as amended, at the refund scenario. *)
Lemma sources_rendering_witness :
  let el :=
    page (snd (displayResult host (Val refund_response) (start_page refund_query))) in
  sources_shown [policy_entry] el
  /\ length (anchors [policy_entry] 0) = length [policy_entry]
  /\ Forall (fun members => quote_free (serialize_text (entry_target members)))
       [policy_entry].
Proof.
  intros el.
  apply (sources_rendering host (Val refund_response)
           (Val (JArray (map JObject [policy_entry]))) (start_page refund_query)).
  - reflexivity.
  - vm_compute. reflexivity.
  - reflexivity.
  - discriminate.
  - constructor; [apply policy_entry_text|constructor].
  - constructor; [vm_compute; reflexivity|constructor].
Defined.

(** C7, the counterexample: a [javascript:] URL is the target of the anchor,
    not the placeholder. *)
Lemma javascript_url_kept :
  let unsafe := js "javascript:alert(1)" in
  let entry := [ (js "name", JString (js "Policy Doc")); (js "url", JString unsafe) ] in
  starts_with (js "javascript:") unsafe = true
  /\ source_html host (JObject entry) 0
     = Normal (source_item unsafe (js "Policy Doc"))
  /\ str_eqb unsafe placeholder_url = false.
Proof. vm_compute. repeat split. Qed.

Lemma untargeted_entry_text : text_entry untargeted_entry.
Proof.
  unfold text_entry, text_or_absent. vm_compute.
  repeat split;
    first [left; reflexivity | right; left; reflexivity
          | right; right; eexists; reflexivity].
Qed.

(** C7 as amended, at a source whose [url] is null and at the source of the
    refund scenario. *)
Lemma source_target_witness :
  source_html host (JObject untargeted_entry) 0
  = Normal (source_item placeholder_url
              (serialize_text (entry_label untargeted_entry 0)))
  /\ source_html host (JObject policy_entry) 0
     = Normal (source_item (serialize_text (js "https://x/policy"))
                 (serialize_text (entry_label policy_entry 0)))
  /\ quote_free (serialize_text (js "https://x/policy")).
Proof.
  split.
  - apply (proj1 (source_target host untargeted_entry 0 untargeted_entry_text)).
    + right. left. reflexivity.
    + left. reflexivity.
  - apply (proj2 (source_target host policy_entry 0 policy_entry_text)
             104%N (js "ttps://x/policy")).
    + reflexivity.
    + vm_compute. reflexivity.
Defined.

(** C8, the counterexample: a response with status 500 whose status text is
    [Failed to fetch] ends in the error region with the connection text, which
    does not include [500]. *)
Lemma http_500_shown_as_connection_failure :
  let env := respond (http_500 (js "Failed to fetch")) in
  let el := page (snd (handleSearch host env (start_page refund_query))) in
  shows_error el
  /\ errorMessage_textContent el = connection_message
  /\ includes (js "500") (errorMessage_textContent el) = false.
Proof. vm_compute. repeat split. Qed.

(** C8 as amended, at a response with status 500 and its usual status text. *)
Lemma http_error_surfaced_witness :
  let env := respond (http_500 (js "Internal Server Error")) in
  let el := page (snd (handleSearch host env (start_page refund_query))) in
  shows_error el
  /\ errorMessage_textContent el = js "HTTPエラー: 500 Internal Server Error"
  /\ includes (js "500") (errorMessage_textContent el) = true.
Proof.
  intros env el.
  destruct (http_error_surfaced host env (start_page refund_query)
              (http_500 (js "Internal Server Error")))
    as (_ & He & Hm & H500).
  - vm_compute. discriminate.
  - reflexivity.
  - reflexivity.
  - specialize (H500 eq_refl eq_refl).
    vm_compute in He, Hm, H500 |- *. auto.
Defined.

(** C9, the counterexample: with a [processingTime] that is a text,
    [displayMetadata] throws and renders neither the count nor the time; and
    the fixed notation of 10^21 is whatever [Number::toString] gives, which
    has no two decimals. *)
Lemma processingTime_text_throws :
  let metadata :=
    Val (JObject [ (js "fileCount", JNumber (Number_of_Z 3));
                   (js "processingTime", JString (js "1.5")) ]) in
  let r := displayMetadata host metadata (start_page refund_query) in
  fst r = Throw (TypeError host (NotAFunction (Val (JString (js "1.5")))))
  /\ metadata_innerHTML (page (snd r)) = []
  /\ (forall digits, Number_toFixed2 digits (Number_of_Z (10 ^ 21))
                     = digits (Number_of_Z (10 ^ 21))).
Proof. vm_compute. repeat split. Qed.

(** C9 as amended, at a count of 3 and a time of 1.23, and at a time of
    zero. *)
Lemma metadata_count_and_time_witness :
  let html :=
    metadata_innerHTML
      (page (snd (displayMetadata host count_and_time (start_page [])))) in
  let html0 :=
    metadata_innerHTML
      (page (snd (displayMetadata host zero_time (start_page [])))) in
  (exists rest, html = fileCount_item (decimal 3) ++ rest)
  /\ (exists before q,
        html = before
               ++ processingTime_item
                    (sign_prefix false ++ decimal (q / 100) ++ js "."
                     ++ [digit_char (q / 10 mod 10); digit_char (q mod 10)])
        /\ rounds_to_hundredths 5539427541665710 (-52) q)
  /\ (exists before, html0 = before ++ processingTime_item (js "0.00")).
Proof.
  intros html html0.
  destruct (metadata_count_and_time host count_and_time (start_page []))
    as [Hcount Htime]; [vm_compute; reflexivity|].
  split; [|split].
  - destruct (Hcount (Val (JNumber (Number_of_Z 3))))
      as (count & rest & _ & Hhtml & Hdec); [reflexivity..|].
    exists rest. unfold html. rewrite Hhtml.
    rewrite (Hdec (Number_of_Z 3) 3%Z eq_refl); [reflexivity|].
    vm_compute. split; reflexivity.
  - destruct (Htime (Val (JNumber (S754_finite false 5539427541665710 (-52)))))
      as (x & before & Hx & Hhtml & _ & Hfix); [reflexivity..|].
    injection Hx as <-.
    destruct (Hfix false 5539427541665710%positive (-52)%Z eq_refl eq_refl)
      as (q & Hq & Hr).
    exists before, q. unfold html. rewrite Hhtml, Hq. split; [reflexivity|exact Hr].
  - destruct (metadata_count_and_time host zero_time (start_page []))
      as [_ Hzero]; [vm_compute; reflexivity|].
    destruct (Hzero (Val (JNumber (S754_zero true))))
      as (x & before & Hx & Hhtml & Hfix & _); [reflexivity..|].
    injection Hx as <-.
    exists before. unfold html0. rewrite Hhtml, (Hfix true eq_refl). reflexivity.
Defined.

(** The count and the time of that object, as rendered. *)
Example count_and_time_rendered :
  metadata_innerHTML (page (snd (displayMetadata host count_and_time (start_page []))))
  = fileCount_item (js "3") ++ processingTime_item (js "1.23").
Proof. vm_compute. reflexivity. Qed.

(** C10, at a response with an empty metadata object after one with a count. *)
Lemma stale_metadata_persists_witness :
  let data :=
    Val (JObject [ (js "answer", JString (js "ok")); (js "metadata", JObject []) ]) in
  metadata_innerHTML (page (snd (displayResult host data after_metadata)))
  = metadata_innerHTML (page after_metadata).
Proof.
  intros data.
  apply (stale_metadata_persists host data [] after_metadata); reflexivity.
Defined.

(** The markup that stays is the count of the earlier response. *)
Example stale_metadata_is_the_earlier_count :
  metadata_innerHTML (page after_metadata) = fileCount_item (js "3").
Proof. vm_compute. reflexivity. Qed.

(* ================================================================== *)
(** ** Further properties of the request client and the handler *)
(* ================================================================== *)

Lemma requests_app a b : requests (a ++ b) = requests a ++ requests b.
Proof. apply flat_map_app. Qed.

Lemma alerts_app a b : alerts (a ++ b) = alerts a ++ alerts b.
Proof. apply flat_map_app. Qed.

Lemma response_log_quiet env :
  requests (response_log env) = [] /\ alerts (response_log env) = [].
Proof.
  unfold response_log. destruct (settles env) as [r|]; [|split; reflexivity].
  destruct (ok r); [|split; reflexivity].
  destruct (body r); split; reflexivity.
Qed.

Section Client.

Variable P : Platform.

(** The world [callAPI] leaves. *)
Lemma callAPI_effects env query w :
  snd (callAPI P env query w)
  = {| page := page w;
       events := events w
                 ++ [ConsoleLogRequest {| body_query := query;
                                          body_timestamp := now env |};
                     Fetch (search_request env query)]
                 ++ response_log env |}.
Proof.
  unfold callAPI, response_log, search_request. run.
  destruct (settles env) as [r|reason]; simpl.
  - destruct (ok r); simpl.
    + destruct (body r) as [data|reason]; simpl.
      * rewrite <- !app_assoc. reflexivity.
      * destruct (str_eqb (error_name reason) (js "AbortError")); simpl;
          rewrite <- !app_assoc; reflexivity.
    + rewrite <- !app_assoc. reflexivity.
  - destruct (str_eqb (error_name reason) (js "AbortError")); simpl;
      rewrite <- !app_assoc; reflexivity.
Qed.

(** X2. The request client never writes to the page: whatever the outcome, it
    only logs the request body, sends the one request and, for a response in
    200..299 whose body reads as JSON, logs the data. *)
Theorem callAPI_leaves_page env query w :
  page (snd (callAPI P env query w)) = page w
  /\ requests (events (snd (callAPI P env query w)))
     = requests (events w) ++ [search_request env query]
  /\ alerts (events (snd (callAPI P env query w))) = alerts (events w).
Proof.
  rewrite callAPI_effects. cbn [page events].
  destruct (response_log_quiet env) as [Hr Ha].
  rewrite !requests_app, !alerts_app, Hr, Ha. simpl.
  rewrite !app_nil_r. auto.
Qed.

(** What [callAPI] throws when the body of a response in 200..299 does not
    read as JSON. *)
Lemma callAPI_body_rejected env query w r reason :
  settles env = Resolved r ->
  ok r = true ->
  body r = BodyRejected reason ->
  fst (callAPI P env query w)
  = Throw (if str_eqb (error_name reason) (js "AbortError")
           then Error (timeout_message P) else reason).
Proof.
  intros H Hok Hb. unfold callAPI. run. rewrite H, Hok, Hb. simpl.
  destruct (str_eqb (error_name reason) (js "AbortError")); reflexivity.
Qed.

Lemma callAPI_data env query w r data :
  settles env = Resolved r ->
  ok r = true ->
  body r = BodyJson data ->
  fst (callAPI P env query w) = Normal data.
Proof.
  intros H Hok Hb. unfold callAPI. run. rewrite H, Hok, Hb. reflexivity.
Qed.

(** X3. The request client returns data exactly for a response with a status
    in 200..299 whose body reads as JSON, and then returns that data; the
    status is checked before the body is read. *)
Theorem callAPI_returns_iff env query w data :
  fst (callAPI P env query w) = Normal data
  <-> exists r, settles env = Resolved r /\ ok r = true /\ body r = BodyJson data.
Proof.
  split.
  - unfold callAPI. run.
    destruct (settles env) as [r|reason]; simpl.
    + destruct (ok r) eqn:Hok; simpl; [|discriminate].
      destruct (body r) as [d|reason] eqn:Hb; simpl.
      * intros E. injection E as <-. exists r. auto.
      * destruct (str_eqb (error_name reason) (js "AbortError")); discriminate.
    + destruct (str_eqb (error_name reason) (js "AbortError")); discriminate.
  - intros (r & Hs & Hok & Hb). apply (callAPI_data env query w r data Hs Hok Hb).
Qed.

(** [displayMetadata] and [displaySources] on a world. *)
Lemma displayMetadata_run metadata w :
  displayMetadata P metadata w
  = match metadata_items P metadata with
    | Normal items =>
        (Normal tt,
         if (0 <? length items)%nat
         then {| page := set_metadata_innerHTML (join_empty items) (page w);
                 events := events w |}
         else w)
    | Throw e => (Throw e, w)
    end.
Proof.
  unfold displayMetadata, bind, evaluate.
  destruct (metadata_items P metadata) as [items|e]; [|reflexivity].
  destruct (0 <? length items)%nat; reflexivity.
Qed.

Lemma displaySources_run sources w :
  displaySources P sources w
  = let shown := {| page := set_sourcesContainer_display (js "block") (page w);
                    events := events w |} in
    match map_sources P sources 0 with
    | Normal htmls =>
        (Normal tt,
         {| page := set_sourcesList_innerHTML (join_empty htmls) (page shown);
            events := events w |})
    | Throw e => (Throw e, shown)
    end.
Proof.
  unfold displaySources, bind, evaluate, update. simpl.
  destruct (map_sources P sources 0); reflexivity.
Qed.

Ltac render :=
  unfold displayResult, bind, evaluate, update, ret; simpl;
  repeat (rewrite ?displayMetadata_run, ?displaySources_run; simpl;
          match goal with
          | |- context [match ?x with Normal _ => _ | Throw _ => _ end] =>
              destruct x
          | |- context [if ?b then _ else _] => destruct b
          end; simpl).

(** [displayMetadata], [displaySources] and [displayResult] emit nothing. *)
Lemma displayResult_events data w :
  events (snd (displayResult P data w)) = events w.
Proof. render; reflexivity. Qed.

(** Whether [displayResult] throws, and what, depends on the data alone. *)
Lemma displayResult_completion data w w' :
  fst (displayResult P data w) = fst (displayResult P data w').
Proof. render; reflexivity. Qed.

(** What [displayResult] makes of the page depends on the page alone. *)
Lemma displayResult_page data w w' :
  page w = page w' ->
  page (snd (displayResult P data w)) = page (snd (displayResult P data w')).
Proof. intros H. render; rewrite ?H; reflexivity. Qed.

(** The events of the attempt: the two of the request client, then only logs. *)
Lemma attempt_events env query w :
  exists tail,
    events (snd (attempt P env query w))
    = events w
      ++ [ConsoleLogRequest {| body_query := query; body_timestamp := now env |};
          Fetch (search_request env query)]
      ++ tail
    /\ requests tail = [] /\ alerts tail = [].
Proof.
  unfold attempt, try_catch. unfold bind at 1.
  pose proof (callAPI_effects env query w) as Hw.
  destruct (response_log_quiet env) as [Hr Ha].
  destruct (callAPI P env query w) as [[data|e] w1]; simpl in Hw.
  - pose proof (displayResult_events (Val data) w1) as He.
    destruct (displayResult P (Val data) w1) as [[[]|e] w2]; simpl in *.
    + exists (response_log env). rewrite He, Hw. auto.
    + exists (response_log env ++ [ConsoleError e]).
      rewrite He, Hw. simpl. rewrite <- !app_assoc.
      rewrite requests_app, alerts_app, Hr, Ha. auto.
  - exists (response_log env ++ [ConsoleError e]). rewrite Hw. simpl.
    rewrite <- !app_assoc. rewrite requests_app, alerts_app, Hr, Ha. auto.
Qed.

Lemma handleSearch_on_empty env w :
  trim (queryInput_value (page w)) = [] ->
  handleSearch P env w
  = (Normal tt,
     {| page := page w; events := events w ++ [Alert (js "質問を入力してください")] |}).
Proof.
  intros E. unfold handleSearch, read. unfold bind at 1. rewrite E. reflexivity.
Qed.

(** X1. One submission sends exactly one request when the trimmed input is not
    empty, with the trimmed input as its query, and none otherwise; it raises
    the notice exactly when the trimmed input is empty. This holds however the
    request settles: nothing is sent a second time. *)
Theorem handleSearch_sends_once env w :
  let query := trim (queryInput_value (page w)) in
  let after := events (snd (handleSearch P env w)) in
  requests after
  = requests (events w)
    ++ (if is_empty query then [] else [search_request env query])
  /\ alerts after
     = alerts (events w)
       ++ (if is_empty query then [js "質問を入力してください"] else []).
Proof.
  intros query after. subst after.
  destruct query as [|c q] eqn:E; subst query.
  - rewrite (handleSearch_on_empty env w E). cbn [is_empty snd events].
    rewrite requests_app, alerts_app. simpl. rewrite app_nil_r. auto.
  - assert (exists tail,
              events (snd (handleSearch P env w))
              = (events w ++ [ScrollIntoViewAfter 100])
                ++ [ConsoleLogRequest {| body_query := c :: q;
                                         body_timestamp := now env |};
                    Fetch (search_request env (c :: q))]
                ++ tail
              /\ requests tail = [] /\ alerts tail = [])
      as (tail & -> & Hr & Ha).
    { rewrite (handleSearch_submits P env w) by (rewrite E; discriminate).
      rewrite E.
      destruct (try_finally_total (attempt P env (c :: q)) restoreButtonState
                  (snd (showLoading w)) restoreButtonState_total) as [_ ->].
      destruct (attempt_events env (c :: q) (snd (showLoading w)))
        as (tail & Hev & Hr & Ha).
      exists tail. split; [exact Hev|auto]. }
    cbn [is_empty].
    rewrite !requests_app, !alerts_app, Hr, Ha. simpl.
    rewrite !app_nil_r. auto.
Qed.

(** The handler on a response in 200..299 whose body reads as JSON. *)
Lemma handleSearch_on_data env w r data :
  trim (queryInput_value (page w)) <> [] ->
  settles env = Resolved r -> ok r = true -> body r = BodyJson data ->
  exists w1,
    page w1 = page (snd (showLoading w))
    /\ snd (handleSearch P env w)
       = snd (restoreButtonState
                (match displayResult P (Val data) w1 with
                 | (Normal _, w2) => w2
                 | (Throw e, w2) => snd (displayError e w2)
                 end)).
Proof.
  intros H Hs Hok Hb. rewrite (handleSearch_submits P env w H).
  set (query := trim _). set (w0 := snd (showLoading w)).
  destruct (try_finally_total (attempt P env query) restoreButtonState w0
              restoreButtonState_total) as [_ ->].
  pose proof (callAPI_data env query w0 r data Hs Hok Hb) as Hc.
  pose proof (callAPI_effects env query w0) as Hw.
  exists (snd (callAPI P env query w0)).
  split; [rewrite Hw; reflexivity|].
  unfold attempt, try_catch. unfold bind at 1.
  destruct (callAPI P env query w0) as [[d|e] w1]; simpl in Hc;
    [injection Hc as ->|discriminate].
  simpl. destruct (displayResult P (Val data) w1) as [[[]|e] w2]; reflexivity.
Qed.

(** X4. When the response has a status in 200..299, its body reads as JSON and
    rendering it completes, the page the handler leaves is the page before,
    taken through [showLoading], [displayResult] on the data and
    [restoreButtonState]: the result is shown with the button ready, and the
    error message is the one that was there. *)
Theorem handleSearch_success env w r data :
  trim (queryInput_value (page w)) <> [] ->
  settles env = Resolved r -> ok r = true -> body r = BodyJson data ->
  fst (displayResult P (Val data) w) = Normal tt ->
  let el := page (snd (handleSearch P env w)) in
  el = page (snd (restoreButtonState
                    (snd (displayResult P (Val data) (snd (showLoading w))))))
  /\ shows_result el /\ submit_ready el
  /\ errorMessage_textContent el = errorMessage_textContent (page w).
Proof.
  intros H Hs Hok Hb Hc el.
  destruct (handleSearch_on_data env w r data H Hs Hok Hb) as (w1 & Hp & Hw).
  assert (el = page (snd (restoreButtonState
                            (snd (displayResult P (Val data) (snd (showLoading w)))))))
    as Hel.
  { subst el. rewrite Hw.
    rewrite (displayResult_completion (Val data) w w1) in Hc.
    pose proof (displayResult_page (Val data) w1 (snd (showLoading w)) Hp) as Hq.
    destruct (displayResult P (Val data) w1) as [[[]|e] w2]; simpl in Hc;
      [|discriminate].
    simpl in *. rewrite Hq. reflexivity. }
  split; [exact Hel|]. rewrite Hel.
  pose proof (displayResult_shows_result P (Val data) (snd (showLoading w)))
    as (L & R & E).
  split; [repeat split; assumption|]. split; [split; reflexivity|].
  clear. render; reflexivity.
Qed.

(** X5. When the response has a status in 200..299 and its body reads as JSON
    but rendering it throws (a body that is null, a source that is null, a
    processing time that is not a number), the error is not lost: the page ends
    showing the error region with the text of that error, the button ready. *)
Theorem handleSearch_render_failure env w r data e :
  trim (queryInput_value (page w)) <> [] ->
  settles env = Resolved r -> ok r = true -> body r = BodyJson data ->
  fst (displayResult P (Val data) w) = Throw e ->
  let el := page (snd (handleSearch P env w)) in
  shows_error el /\ errorMessage_textContent el = error_text e /\ submit_ready el.
Proof.
  intros H Hs Hok Hb Hc el.
  destruct (handleSearch_on_data env w r data H Hs Hok Hb) as (w1 & Hp & Hw).
  subst el. rewrite Hw.
  rewrite (displayResult_completion (Val data) w w1) in Hc.
  destruct (displayResult P (Val data) w1) as [[[]|e'] w2]; simpl in Hc;
    [discriminate|injection Hc as ->].
  repeat split.
Qed.

(** X6. A rejection of the request, or of the read of the body, whose name is
    not [AbortError] is shown as it is: the page ends in the error region with
    the text of that very error and the button ready. *)
Theorem handleSearch_rejection_shown env w reason :
  trim (queryInput_value (page w)) <> [] ->
  settles env = Rejected reason
  \/ (exists r, settles env = Resolved r /\ ok r = true
                /\ body r = BodyRejected reason) ->
  str_eqb (error_name reason) (js "AbortError") = false ->
  let el := page (snd (handleSearch P env w)) in
  shows_error el /\ errorMessage_textContent el = error_text reason
  /\ submit_ready el.
Proof.
  intros H Hs Hn el.
  assert (fst (callAPI P env (trim (queryInput_value (page w)))
                 (snd (showLoading w))) = Throw reason) as Hc.
  { destruct Hs as [Hs|(r & Hs & Hok & Hb)].
    - rewrite (callAPI_rejected P env _ _ reason Hs), Hn. reflexivity.
    - rewrite (callAPI_body_rejected env _ _ r reason Hs Hok Hb), Hn.
      reflexivity. }
  destruct (handleSearch_failure P env w reason H Hc) as [He Hm].
  split; [exact He|]. split; [exact Hm|].
  subst el. rewrite (handleSearch_submits P env w H).
  destruct (try_finally_total (attempt P env (trim (queryInput_value (page w))))
              restoreButtonState (snd (showLoading w)) restoreButtonState_total)
    as [_ ->].
  split; reflexivity.
Qed.

(** X7. A rejection whose message includes ['Failed to fetch'] is shown as
    the connection text, which ends with the configured endpoint, whatever
    else the message says. *)
Theorem handleSearch_connection_failure env w reason :
  trim (queryInput_value (page w)) <> [] ->
  settles env = Rejected reason ->
  str_eqb (error_name reason) (js "AbortError") = false ->
  includes (js "Failed to fetch") (error_message reason) = true ->
  let el := page (snd (handleSearch P env w)) in
  shows_error el
  /\ errorMessage_textContent el = connection_message
  /\ exists text, connection_message = text ++ endpoint API_CONFIG.
Proof.
  intros H Hs Hn Hi el.
  assert (fst (callAPI P env (trim (queryInput_value (page w)))
                 (snd (showLoading w))) = Throw reason) as Hc
    by (rewrite (callAPI_rejected P env _ _ reason Hs), Hn; reflexivity).
  destruct (handleSearch_failure P env w reason H Hc) as [He Hm].
  split; [exact He|]. split.
  - fold el in Hm. rewrite Hm. unfold error_text. rewrite Hi. reflexivity.
  - unfold connection_message. rewrite !app_assoc. eauto.
Qed.

(** X8. [displayError] never leaves the message region empty: an error with an
    empty message is shown as the fixed text. *)
Theorem displayError_text_not_empty error w :
  is_empty (errorMessage_textContent (page (snd (displayError error w)))) = false
  /\ (error_message error = [] ->
      errorMessage_textContent (page (snd (displayError error w))) = fallback_error).
Proof.
  change (errorMessage_textContent (page (snd (displayError error w))))
    with (error_text error).
  unfold error_text. split.
  - destruct (includes (js "Failed to fetch") (error_message error)).
    + vm_compute. reflexivity.
    + destruct (error_message error); [vm_compute|]; reflexivity.
  - intros ->. reflexivity.
Qed.

(** X9. A rejection named [AbortError] is shown as the timeout message of the
    request client, which holds the configured 30000 ms as 30 seconds. *)
Theorem handleSearch_abort_shows_duration env w reason :
  trim (queryInput_value (page w)) <> [] ->
  settles env = Rejected reason ->
  error_name reason = js "AbortError" ->
  let el := page (snd (handleSearch P env w)) in
  shows_error el
  /\ errorMessage_textContent el = js "リクエストがタイムアウトしました（30秒以上）".
Proof.
  intros H Hs Hn el.
  destruct (aborted_request_shows_timeout_message P env w reason H Hs Hn)
    as [He Hm].
  split; [exact He|]. fold el in Hm. rewrite Hm. apply timeout_message_text.
Qed.

(** X10. The key listener submits for a plain Enter only: with the shift key
    down, or for any other key, it changes nothing, sends nothing and leaves
    the default action of the key alone. *)
Theorem onKeydown_ignores key shiftKey env w :
  shiftKey = true \/ key <> js "Enter" ->
  onKeydown P key shiftKey env w = (Normal false, w).
Proof.
  intros H. unfold onKeydown.
  assert (str_eqb key (js "Enter") && negb shiftKey = false) as ->; [|reflexivity].
  destruct H as [->|H]; [apply andb_false_r|].
  apply andb_false_intro1.
  destruct (str_eqb key (js "Enter")) eqn:E; [|reflexivity].
  apply str_eqb_eq in E. contradiction.
Qed.

(** X11. A plain Enter prevents the default action and does what the submit
    handler does: on an input of white space it only raises the notice, and
    otherwise it sends the one request with the trimmed input. *)
Theorem onKeydown_submits env w :
  let r := onKeydown P (js "Enter") false env w in
  fst r = Normal true
  /\ snd r = snd (handleSearch P env w)
  /\ requests (events (snd r))
     = requests (events w)
       ++ (if is_empty (trim (queryInput_value (page w))) then []
           else [search_request env (trim (queryInput_value (page w)))]).
Proof.
  intros r.
  assert (r = (Normal true, snd (handleSearch P env w))) as -> by reflexivity.
  split; [reflexivity|]. split; [reflexivity|].
  cbn [snd].
  destruct (trim (queryInput_value (page w))) as [|c q] eqn:E.
  - rewrite (handleSearch_on_empty env w E). cbn [is_empty snd events].
    rewrite requests_app. simpl. reflexivity.
  - assert (exists tail,
              events (snd (handleSearch P env w))
              = (events w ++ [ScrollIntoViewAfter 100])
                ++ [ConsoleLogRequest {| body_query := c :: q;
                                         body_timestamp := now env |};
                    Fetch (search_request env (c :: q))]
                ++ tail
              /\ requests tail = [])
      as (tail & -> & Hr).
    { rewrite (handleSearch_submits P env w) by (rewrite E; discriminate).
      rewrite E.
      destruct (try_finally_total (attempt P env (c :: q)) restoreButtonState
                  (snd (showLoading w)) restoreButtonState_total) as [_ ->].
      destruct (attempt_events env (c :: q) (snd (showLoading w)))
        as (tail & Hev & Hr & _).
      exists tail. split; [exact Hev|exact Hr]. }
    cbn [is_empty]. rewrite !requests_app, Hr. simpl.
    rewrite !app_nil_r. reflexivity.
Qed.

End Client.

(* ================================================================== *)
(** ** Further properties of the rendering *)
(* ================================================================== *)

(** The five kinds of code unit [escape_unit] tells apart. *)
Lemma escape_unit_cases c :
  (c = 38%N /\ escape_unit c = [38; 97; 109; 112; 59]%N)
  \/ (c = 160%N /\ escape_unit c = [38; 110; 98; 115; 112; 59]%N)
  \/ (c = 60%N /\ escape_unit c = [38; 108; 116; 59]%N)
  \/ (c = 62%N /\ escape_unit c = [38; 103; 116; 59]%N)
  \/ (c <> 38%N /\ escape_unit c = [c]).
Proof.
  unfold escape_unit.
  destruct (N.eqb_spec c 38) as [->|H38]; [left; split; reflexivity|].
  destruct (N.eqb_spec c 160) as [->|H160];
    [right; left; split; reflexivity|].
  destruct (N.eqb_spec c 60) as [->|H60];
    [right; right; left; split; reflexivity|].
  destruct (N.eqb_spec c 62) as [->|H62];
    [right; right; right; left; split; reflexivity|].
  right; right; right; right. split; [exact H38|reflexivity].
Qed.

Lemma serialize_text_app a b :
  serialize_text (a ++ b) = serialize_text a ++ serialize_text b.
Proof. apply flat_map_app. Qed.

Lemma serialize_text_inj s t :
  serialize_text s = serialize_text t -> s = t.
Proof.
  revert t. induction s as [|c s IH]; intros [|d t]; simpl; intros H.
  - reflexivity.
  - destruct (escape_unit_cases d) as [[_ E]|[[_ E]|[[_ E]|[[_ E]|[_ E]]]]];
      rewrite E in H; discriminate.
  - destruct (escape_unit_cases c) as [[_ E]|[[_ E]|[[_ E]|[[_ E]|[_ E]]]]];
      rewrite E in H; discriminate.
  - destruct (escape_unit_cases c) as [[Hc Ec]|[[Hc Ec]|[[Hc Ec]|[[Hc Ec]|[Hc Ec]]]]];
      destruct (escape_unit_cases d) as [[Hd Ed]|[[Hd Ed]|[[Hd Ed]|[[Hd Ed]|[Hd Ed]]]]];
      rewrite Ec, Ed in H; simpl in H;
      try discriminate;
      try (injection H as H; subst; f_equal; now apply IH);
      try (injection H as H1 H2; congruence);
      try (injection H as H1 H2; subst; f_equal; now apply IH).
Qed.

(** X12. Escaping loses nothing: two texts have the same escaped form exactly
    when they are the same text. *)
Theorem serialize_text_injective s t :
  serialize_text s = serialize_text t <-> s = t.
Proof. split; [apply serialize_text_inj|intros ->; reflexivity]. Qed.

Section Display.

Variable P : Platform.

(** X13. Whatever value [escapeHtml] is given, the text it returns holds no
    angle bracket, so that it cannot open or close a tag. *)
Theorem escapeHtml_no_bracket v s :
  escapeHtml P v = Normal s ->
  Forall (fun c => c <> 60%N /\ c <> 62%N) s.
Proof.
  unfold escapeHtml, andThen.
  destruct (to_textContent P v) as [content|e]; [|discriminate].
  intros E. injection E as <-. apply serialize_text_no_bracket.
Qed.

(** X14. [escapeHtml] leaves a double quote as it is: in the anchor of a
    source whose [url] holds one, the quote stands unescaped inside the quoted
    [href] value. *)
Theorem source_html_keeps_quote members index a b :
  text_entry members ->
  member members Key.url = Val (JString (a ++ dquote ++ b)) ->
  source_html P (JObject members) index
  = Normal (source_item (serialize_text a ++ dquote ++ serialize_text b)
              (serialize_text (entry_label members index))).
Proof.
  intros Ht Hu. rewrite (source_html_text P members index Ht).
  unfold entry_target. rewrite Hu.
  assert (first_text (Val (JString (a ++ dquote ++ b))) (member members Key.link)
            placeholder_url = a ++ dquote ++ b) as ->.
  { unfold first_text. destruct a; reflexivity. }
  rewrite !serialize_text_app. reflexivity.
Qed.

(** X15. When [sources] is not an array or is an empty one, [displayResult]
    leaves the markup of the list as it was: the links of an earlier response
    stay in the hidden region. *)
Theorem stale_sources_list_persists data v w :
  property data Key.sources = Some v ->
  isArray v = false \/ v = Val (JArray []) ->
  sourcesList_innerHTML (page (snd (displayResult P data w)))
  = sourcesList_innerHTML (page w).
Proof.
  intros Hg Hv. rewrite displayResult_blocks.
  set (l := sourcesList_innerHTML (page w)).
  assert (preserves (fun el => sourcesList_innerHTML el = l)
    (update (set_loadingState_display (js "none")) ;;
     update (set_resultContent_display (js "block")) ;;
     update (set_errorContent_display (js "none")) ;;
     answer_block P data ;; metadata_block P data ;; sources_block P data)) as Hp;
    [|apply Hp; reflexivity].
  clearbody l. clear w.
  apply preserves_bind; [frame|intros _].
  apply preserves_bind; [frame|intros _].
  apply preserves_bind; [frame|intros _].
  apply preserves_bind; [unfold answer_block; frame|intros _].
  apply preserves_bind; [unfold metadata_block, displayMetadata; frame|intros _].
  unfold sources_block. apply preserves_bind_evaluate. intros sources E.
  rewrite (Get_property P _ _ _ Hg) in E. injection E as <-.
  assert (ToBoolean v && isArray v && (0 <? length (array_items v))%nat = false) as ->.
  { destruct Hv as [Hv| ->]; [rewrite Hv|reflexivity]. apply andb_false_intro1.
    apply andb_false_r. }
  frame.
Qed.

(** X16. A body that is neither null nor an object (a text, a number, a
    truth value, an array) renders without an error: the fixed answer text is
    shown, the sources are hidden, and nothing else of the page changes. *)
Theorem displayResult_not_an_object data w :
  not_an_object data ->
  displayResult P (Val data) w
  = (Normal tt,
     {| page :=
          set_sourcesContainer_display (js "none")
            (set_answerText_textContent fallback_answer
               (set_errorContent_display (js "none")
                  (set_resultContent_display (js "block")
                     (set_loadingState_display (js "none") (page w)))));
        events := events w |}).
Proof.
  destruct data; simpl; intros H; try contradiction; reflexivity.
Qed.

(** X17. A source that is not an object still gets an anchor with the label
    of its position, except a null one, on which the rendering throws: a
    truth value, a number or an array has the placeholder as its target, and a
    text has the source text of the built-in [link] method of strings. *)
Theorem source_html_not_an_object entry index :
  not_an_object entry ->
  source_html P entry index
  = Normal (source_item
              (match entry with
               | JString _ => serialize_text (link_source_text P)
               | _ => placeholder_url
               end)
              (serialize_text (reference_label index))).
Proof.
  destruct entry; simpl; intros H; try contradiction; reflexivity.
Qed.

(** X18. The block [displayMetadata] writes: when it completes, the region is
    written only if there is an entry, and then holds nothing but the entries,
    at most one each and in this order, of a [fileCount] that is not
    undefined, a [timestamp] that is truthy and a [processingTime] that is not
    undefined; with no entry the region is as it was. *)
Theorem displayMetadata_block metadata w :
  fst (displayMetadata P metadata w) = Normal tt ->
  exists fileCount timestamp processingTime i1 i2 i3,
    property metadata Key.fileCount = Some fileCount
    /\ property metadata Key.timestamp = Some timestamp
    /\ property metadata Key.processingTime = Some processingTime
    /\ (if is_defined fileCount
        then exists count, ToString P fileCount = Normal count
                           /\ i1 = [fileCount_item count]
        else i1 = [])
    /\ (if ToBoolean timestamp
        then exists timeStr, Date_toLocaleString P timestamp = Normal timeStr
                             /\ i2 = [timestamp_item timeStr]
        else i2 = [])
    /\ (if is_defined processingTime
        then exists seconds, toFixed2 P processingTime = Normal seconds
                             /\ i3 = [processingTime_item seconds]
        else i3 = [])
    /\ metadata_innerHTML (page (snd (displayMetadata P metadata w)))
       = (if is_defined fileCount || ToBoolean timestamp
             || is_defined processingTime
          then join_empty (i1 ++ i2 ++ i3)
          else metadata_innerHTML (page w)).
Proof.
  intros Hc.
  assert (exists items, metadata_items P metadata = Normal items
                        /\ displayMetadata P metadata w
                           = (Normal tt,
                              if (0 <? length items)%nat
                              then {| page := set_metadata_innerHTML
                                                (join_empty items) (page w);
                                      events := events w |}
                              else w))
    as (items & Hi & Hrun).
  { revert Hc. unfold displayMetadata, bind, evaluate.
    destruct (metadata_items P metadata) as [items|e]; simpl; [|discriminate].
    intros _. exists items. split; [reflexivity|].
    destruct (0 <? length items)%nat; reflexivity. }
  destruct (metadata_items_shape P metadata items Hi)
    as (fc & ts & pt & i1 & i2 & i3 & Gfc & Gts & Gpt & -> & H1 & H2 & H3).
  exists fc, ts, pt, i1, i2, i3.
  repeat split; try (apply (Get_normal P); assumption); try assumption.
  rewrite Hrun. cbn [snd].
  destruct (is_defined fc); [destruct H1 as (? & _ & ->); reflexivity|subst i1].
  destruct (ToBoolean ts); [destruct H2 as (? & _ & ->); reflexivity|subst i2].
  destruct (is_defined pt); [destruct H3 as (? & _ & ->); reflexivity|subst i3].
  reflexivity.
Qed.

(** X19. The development helper needs no request: on every page, with a
    clock reading that is not empty, it shows its mock answer with the count
    of 3, the localized time stamp and the time of 1.23, lists its two sources, leaves the button ready and emits nothing. *)
Theorem showMockResult_renders env w :
  now env <> [] ->
  let r := showMockResult P env w in
  let el := page (snd r) in
  fst r = Normal tt
  /\ events (snd r) = events w
  /\ shows_result el /\ submit_ready el
  /\ metadata_innerHTML el
     = fileCount_item (js "3")
       ++ timestamp_item (toLocaleString_jaJP P (Val (JString (now env))))
       ++ processingTime_item (js "1.23")
  /\ sourcesContainer_display el = js "block"
  /\ sourcesList_innerHTML el
     = source_item (js "https://example.com/guide") (js "プロジェクト進行ガイド")
       ++ source_item (js "https://example.com/template") (js "契約書テンプレート").
Proof.
  intros H. destruct env as [[|c clock_text] outcome];
    [exact (False_ind _ (H eq_refl))|clear H].
  vm_compute. repeat split.
Qed.

End Display.

(* ================================================================== *)
(** ** Instances of the further properties *)
(* ================================================================== *)

(** X4, at the refund scenario. *)
Lemma handleSearch_success_witness :
  let el := page (snd (handleSearch host refund_env (start_page refund_query))) in
  el = page (snd (restoreButtonState
                    (snd (displayResult host (Val refund_response)
                            (snd (showLoading (start_page refund_query)))))))
  /\ shows_result el /\ submit_ready el
  /\ errorMessage_textContent el
     = errorMessage_textContent (page (start_page refund_query)).
Proof.
  apply (handleSearch_success host refund_env (start_page refund_query)
           {| status := 200; statusText := js "OK"; body := BodyJson refund_response |}
           refund_response).
  - vm_compute. discriminate.
  - reflexivity.
  - reflexivity.
  - reflexivity.
  - vm_compute. reflexivity.
Defined.

(** X5, at a body that is null. *)
Lemma handleSearch_render_failure_witness :
  let env := respond {| status := 200; statusText := js "OK"; body := BodyJson JNull |} in
  let el := page (snd (handleSearch host env (start_page refund_query))) in
  shows_error el
  /\ errorMessage_textContent el
     = error_text (TypeError host (ReadOfNullish (Val JNull) (js "answer")))
  /\ submit_ready el.
Proof.
  apply (handleSearch_render_failure host
           (respond {| status := 200; statusText := js "OK"; body := BodyJson JNull |})
           (start_page refund_query)
           {| status := 200; statusText := js "OK"; body := BodyJson JNull |}
           JNull).
  - vm_compute. discriminate.
  - reflexivity.
  - reflexivity.
  - reflexivity.
  - vm_compute. reflexivity.
Defined.

(** X6, at a body that does not read as JSON. *)
Lemma handleSearch_rejection_shown_witness :
  let env := respond {| status := 200; statusText := js "OK";
                        body := BodyRejected syntax_error |} in
  let el := page (snd (handleSearch host env (start_page refund_query))) in
  shows_error el /\ errorMessage_textContent el = error_text syntax_error
  /\ submit_ready el.
Proof.
  apply (handleSearch_rejection_shown host
           (respond {| status := 200; statusText := js "OK";
                       body := BodyRejected syntax_error |})
           (start_page refund_query) syntax_error).
  - vm_compute. discriminate.
  - right. eexists. repeat split; reflexivity.
  - reflexivity.
Defined.

(** X7, at a request that cannot reach the server. *)
Lemma handleSearch_connection_failure_witness :
  let env := {| now := clock; settles := Rejected unreachable |} in
  let el := page (snd (handleSearch host env (start_page refund_query))) in
  shows_error el
  /\ errorMessage_textContent el = connection_message
  /\ exists text, connection_message = text ++ endpoint API_CONFIG.
Proof.
  apply (handleSearch_connection_failure host
           {| now := clock; settles := Rejected unreachable |}
           (start_page refund_query) unreachable).
  - vm_compute. discriminate.
  - reflexivity.
  - reflexivity.
  - reflexivity.
Defined.

(** X9, at a request aborted by the user. *)
Lemma handleSearch_abort_shows_duration_witness :
  let env := {| now := clock; settles := Rejected user_abort |} in
  let el := page (snd (handleSearch host env (start_page refund_query))) in
  shows_error el
  /\ errorMessage_textContent el = js "リクエストがタイムアウトしました（30秒以上）".
Proof.
  apply (handleSearch_abort_shows_duration host
           {| now := clock; settles := Rejected user_abort |}
           (start_page refund_query) user_abort).
  - vm_compute. discriminate.
  - reflexivity.
  - reflexivity.
Defined.

(** X10, at Shift+Enter. *)
Lemma onKeydown_ignores_witness :
  onKeydown host (js "Enter") true refund_env (start_page refund_query)
  = (Normal false, start_page refund_query).
Proof.
  apply (onKeydown_ignores host (js "Enter") true refund_env
           (start_page refund_query)).
  left. reflexivity.
Defined.

(** X13, at a text with a tag. *)
Lemma escapeHtml_no_bracket_witness :
  Forall (fun c => c <> 60%N /\ c <> 62%N) (js "&lt;b&gt;").
Proof.
  apply (escapeHtml_no_bracket host (Val (JString (js "<b>"))) (js "&lt;b&gt;")).
  reflexivity.
Defined.

Lemma quoting_entry_text : text_entry quoting_entry.
Proof.
  unfold text_entry, text_or_absent. vm_compute.
  repeat split; first [left; reflexivity | right; right; eexists; reflexivity].
Qed.

(** X14, at that source. *)
Lemma source_html_keeps_quote_witness :
  source_html host (JObject quoting_entry) 0
  = Normal (source_item
              (serialize_text (js "x") ++ dquote
               ++ serialize_text (js " onmouseover=alert(1) x="))
              (serialize_text (entry_label quoting_entry 0))).
Proof.
  apply (source_html_keeps_quote host quoting_entry 0
           (js "x") (js " onmouseover=alert(1) x=") quoting_entry_text).
  reflexivity.
Defined.

(** X15, at a response without sources after the refund scenario. *)
Lemma stale_sources_list_persists_witness :
  let data := Val (JObject [ (js "answer", JString (js "ok")) ]) in
  sourcesList_innerHTML (page (snd (displayResult host data after_refund)))
  = sourcesList_innerHTML (page after_refund).
Proof.
  intros data.
  apply (stale_sources_list_persists host data Undefined after_refund).
  - reflexivity.
  - left. reflexivity.
Defined.

(** X16, at a body that is a text. *)
Lemma displayResult_not_an_object_witness :
  displayResult host (Val (JString (js "hello"))) (start_page refund_query)
  = (Normal tt,
     {| page :=
          set_sourcesContainer_display (js "none")
            (set_answerText_textContent fallback_answer
               (set_errorContent_display (js "none")
                  (set_resultContent_display (js "block")
                     (set_loadingState_display (js "none")
                        (page (start_page refund_query))))));
        events := events (start_page refund_query) |}).
Proof.
  apply (displayResult_not_an_object host (JString (js "hello"))
           (start_page refund_query)).
  exact I.
Defined.

(** X17, at a source that is a text. *)
Lemma source_html_not_an_object_witness :
  source_html host (JString (js "https://x/policy")) 0
  = Normal (source_item (serialize_text (link_source_text host))
              (serialize_text (reference_label 0))).
Proof.
  apply (source_html_not_an_object host (JString (js "https://x/policy")) 0).
  exact I.
Defined.

(** X18, at a count of 3 and a time of 1.23. *)
Lemma displayMetadata_block_witness :
  exists fileCount timestamp processingTime i1 i2 i3,
    property count_and_time Key.fileCount = Some fileCount
    /\ property count_and_time Key.timestamp = Some timestamp
    /\ property count_and_time Key.processingTime = Some processingTime
    /\ (if is_defined fileCount
        then exists count, ToString host fileCount = Normal count
                           /\ i1 = [fileCount_item count]
        else i1 = [])
    /\ (if ToBoolean timestamp
        then exists timeStr, Date_toLocaleString host timestamp = Normal timeStr
                             /\ i2 = [timestamp_item timeStr]
        else i2 = [])
    /\ (if is_defined processingTime
        then exists seconds, toFixed2 host processingTime = Normal seconds
                             /\ i3 = [processingTime_item seconds]
        else i3 = [])
    /\ metadata_innerHTML
         (page (snd (displayMetadata host count_and_time (start_page []))))
       = (if is_defined fileCount || ToBoolean timestamp
             || is_defined processingTime
          then join_empty (i1 ++ i2 ++ i3)
          else metadata_innerHTML (page (start_page []))).
Proof.
  apply (displayMetadata_block host count_and_time (start_page [])).
  vm_compute. reflexivity.
Defined.

(** X19, at the clock reading of the examples. *)
Lemma showMockResult_renders_witness :
  let r := showMockResult host refund_env (start_page []) in
  let el := page (snd r) in
  fst r = Normal tt
  /\ events (snd r) = events (start_page [])
  /\ shows_result el /\ submit_ready el
  /\ metadata_innerHTML el
     = fileCount_item (js "3")
       ++ timestamp_item (toLocaleString_jaJP host (Val (JString (now refund_env))))
       ++ processingTime_item (js "1.23")
  /\ sourcesContainer_display el = js "block"
  /\ sourcesList_innerHTML el
     = source_item (js "https://example.com/guide") (js "プロジェクト進行ガイド")
       ++ source_item (js "https://example.com/template") (js "契約書テンプレート").
Proof.
  apply (showMockResult_renders host refund_env (start_page [])).
  vm_compute. discriminate.
Defined.
